(** * termine-fe: the booking front-end controller ([src/App.js])

    A shallow embedding of the [App] component: its state variables, the
    promise chains of its operations, its effect hooks and timers, and a
    transition system in which the views, the network and the browser's timer
    queue are the environment. *)

From stdpp Require Import base option list strings gmap.
From Stdlib Require Import ZArith Lia.

Local Open Scope string_scope.
Local Open Scope Z_scope.
Local Open Scope list_scope.

(** ** Values exchanged with the API *)

(** Payloads the component only stores and hands to the views. *)
#[local] Unset Elimination Schemes.
Inductive JSValue : Type :=
| JNull
| JBool (b : bool)
| JNum (n : Z)
| JStr (s : string)
| JArr (items : list JSValue)
| JObj (props : list (string * JSValue)).
#[local] Set Elimination Schemes.

(** [Date] values, as milliseconds since the epoch. *)
Definition Date : Type := Z.

(** An HTTP response: [response.status] and [response.data]. *)
Record Response (D : Type) : Type := mkResponse { status : Z; data : D }.
Arguments mkResponse {D} status data.
Arguments status {D} r.
Arguments data {D} r.

(** What a promise rejects with, or what a handler throws.  [error.response]
    is the HTTP response when the server answered, and is undefined when no
    response was received or when the value is a [TypeError]. *)
Inductive Reason : Type :=
| ApiError (response : option (Response JSValue))
| TypeError.

Definition error_response (error : Reason) : option (Response JSValue) :=
  match error with
  | ApiError response => response
  | TypeError => None
  end.

Inductive Outcome (D : Type) : Type :=
| Fulfilled (response : Response D)
| Rejected (error : Reason).
Arguments Fulfilled {D} response.
Arguments Rejected {D} error.

(** [response.data] of [Api.fetchSlots]. *)
Module SlotsData.
Record t : Type := mk { slots : JSValue; coupons : JSValue }.
End SlotsData.

(** [response.data] of [Api.book]. *)
Module BookingData.
Record t : Type :=
  mk { secret : string; time_slot : string; slot_length_min : Z }.
End BookingData.

(** ** The component's state variables *)

Module Appointment.
Record t : Type := mk { startDateTime : string; lengthMin : Z }.
End Appointment.

(** Modelled from the spec: [INFOBOX_STATES] of [./utils], of which [App.js]
    uses these four members ("enum: initial/form-input/success/error"). *)
Inductive INFOBOX_STATES : Type :=
| INITIAL
| FORM_INPUT
| APPOINTMENT_SUCCESS
| ERROR.

Module Infobox.
Record t : Type := mk { state : INFOBOX_STATES; msg : string }.
End Infobox.

Module FormState.
Record t : Type :=
  mk { firstName : string; name : string; phone : string; office : string }.

Definition with_firstName (v : string) (f : t) : t :=
  {| firstName := v; name := name f; phone := phone f; office := office f |}.
Definition with_name (v : string) (f : t) : t :=
  {| firstName := firstName f; name := v; phone := phone f; office := office f |}.
Definition with_phone (v : string) (f : t) : t :=
  {| firstName := firstName f; name := name f; phone := v; office := office f |}.
End FormState.

(** [TAB] *)
Inductive Tab : Type :=
| BOOK
| BOOKED.

(** One field per [useState] call, in the order of the source. *)
Record AppState : Type := mkAppState {
  triggerRefresh : bool;
  selectedAppointment : Appointment.t;
  bookedAppointment : Appointment.t;
  showSpinner : bool;
  freeSlotList : JSValue;
  coupons : JSValue;
  claimToken : string;
  startDateTime : string;
  focusOnList : bool;
  infoboxState : Infobox.t;
  formState : FormState.t;
  currentTab : Tab;
  bookedList : JSValue;
  startDate : Date;
  endDate : Date
}.

(** The first render: [promiseInProgress] is what [usePromiseTracker] reports
    then and [now] is the value of [new Date()]. *)
Definition initial (promiseInProgress : bool) (now : Date) : AppState :=
  {| triggerRefresh := true;
     selectedAppointment := Appointment.mk "" 0;
     bookedAppointment := Appointment.mk "" 0;
     showSpinner := promiseInProgress;
     freeSlotList := JNull;
     coupons := JNull;
     claimToken := "";
     startDateTime := "";
     focusOnList := true;
     infoboxState := Infobox.mk INITIAL "";
     formState := FormState.mk "" "" "" "";
     currentTab := BOOK;
     bookedList := JArr [];
     startDate := now;
     endDate := now |}.

(** Replacing one state variable. *)
Definition with_triggerRefresh (v : bool) (s : AppState) : AppState :=
  {| triggerRefresh := v; selectedAppointment := selectedAppointment s;
     bookedAppointment := bookedAppointment s; showSpinner := showSpinner s;
     freeSlotList := freeSlotList s; coupons := coupons s;
     claimToken := claimToken s; startDateTime := startDateTime s;
     focusOnList := focusOnList s; infoboxState := infoboxState s;
     formState := formState s; currentTab := currentTab s;
     bookedList := bookedList s; startDate := startDate s;
     endDate := endDate s |}.

Definition with_selectedAppointment (v : Appointment.t) (s : AppState) : AppState :=
  {| triggerRefresh := triggerRefresh s; selectedAppointment := v;
     bookedAppointment := bookedAppointment s; showSpinner := showSpinner s;
     freeSlotList := freeSlotList s; coupons := coupons s;
     claimToken := claimToken s; startDateTime := startDateTime s;
     focusOnList := focusOnList s; infoboxState := infoboxState s;
     formState := formState s; currentTab := currentTab s;
     bookedList := bookedList s; startDate := startDate s;
     endDate := endDate s |}.

Definition with_bookedAppointment (v : Appointment.t) (s : AppState) : AppState :=
  {| triggerRefresh := triggerRefresh s;
     selectedAppointment := selectedAppointment s; bookedAppointment := v;
     showSpinner := showSpinner s; freeSlotList := freeSlotList s;
     coupons := coupons s; claimToken := claimToken s;
     startDateTime := startDateTime s; focusOnList := focusOnList s;
     infoboxState := infoboxState s; formState := formState s;
     currentTab := currentTab s; bookedList := bookedList s;
     startDate := startDate s; endDate := endDate s |}.

Definition with_showSpinner (v : bool) (s : AppState) : AppState :=
  {| triggerRefresh := triggerRefresh s;
     selectedAppointment := selectedAppointment s;
     bookedAppointment := bookedAppointment s; showSpinner := v;
     freeSlotList := freeSlotList s; coupons := coupons s;
     claimToken := claimToken s; startDateTime := startDateTime s;
     focusOnList := focusOnList s; infoboxState := infoboxState s;
     formState := formState s; currentTab := currentTab s;
     bookedList := bookedList s; startDate := startDate s;
     endDate := endDate s |}.

Definition with_freeSlotList (v : JSValue) (s : AppState) : AppState :=
  {| triggerRefresh := triggerRefresh s;
     selectedAppointment := selectedAppointment s;
     bookedAppointment := bookedAppointment s; showSpinner := showSpinner s;
     freeSlotList := v; coupons := coupons s; claimToken := claimToken s;
     startDateTime := startDateTime s; focusOnList := focusOnList s;
     infoboxState := infoboxState s; formState := formState s;
     currentTab := currentTab s; bookedList := bookedList s;
     startDate := startDate s; endDate := endDate s |}.

Definition with_coupons (v : JSValue) (s : AppState) : AppState :=
  {| triggerRefresh := triggerRefresh s;
     selectedAppointment := selectedAppointment s;
     bookedAppointment := bookedAppointment s; showSpinner := showSpinner s;
     freeSlotList := freeSlotList s; coupons := v;
     claimToken := claimToken s; startDateTime := startDateTime s;
     focusOnList := focusOnList s; infoboxState := infoboxState s;
     formState := formState s; currentTab := currentTab s;
     bookedList := bookedList s; startDate := startDate s;
     endDate := endDate s |}.

Definition with_claimToken (v : string) (s : AppState) : AppState :=
  {| triggerRefresh := triggerRefresh s;
     selectedAppointment := selectedAppointment s;
     bookedAppointment := bookedAppointment s; showSpinner := showSpinner s;
     freeSlotList := freeSlotList s; coupons := coupons s; claimToken := v;
     startDateTime := startDateTime s; focusOnList := focusOnList s;
     infoboxState := infoboxState s; formState := formState s;
     currentTab := currentTab s; bookedList := bookedList s;
     startDate := startDate s; endDate := endDate s |}.

Definition with_startDateTime (v : string) (s : AppState) : AppState :=
  {| triggerRefresh := triggerRefresh s;
     selectedAppointment := selectedAppointment s;
     bookedAppointment := bookedAppointment s; showSpinner := showSpinner s;
     freeSlotList := freeSlotList s; coupons := coupons s;
     claimToken := claimToken s; startDateTime := v;
     focusOnList := focusOnList s; infoboxState := infoboxState s;
     formState := formState s; currentTab := currentTab s;
     bookedList := bookedList s; startDate := startDate s;
     endDate := endDate s |}.

Definition with_focusOnList (v : bool) (s : AppState) : AppState :=
  {| triggerRefresh := triggerRefresh s;
     selectedAppointment := selectedAppointment s;
     bookedAppointment := bookedAppointment s; showSpinner := showSpinner s;
     freeSlotList := freeSlotList s; coupons := coupons s;
     claimToken := claimToken s; startDateTime := startDateTime s;
     focusOnList := v; infoboxState := infoboxState s;
     formState := formState s; currentTab := currentTab s;
     bookedList := bookedList s; startDate := startDate s;
     endDate := endDate s |}.

Definition with_infoboxState (v : Infobox.t) (s : AppState) : AppState :=
  {| triggerRefresh := triggerRefresh s;
     selectedAppointment := selectedAppointment s;
     bookedAppointment := bookedAppointment s; showSpinner := showSpinner s;
     freeSlotList := freeSlotList s; coupons := coupons s;
     claimToken := claimToken s; startDateTime := startDateTime s;
     focusOnList := focusOnList s; infoboxState := v;
     formState := formState s; currentTab := currentTab s;
     bookedList := bookedList s; startDate := startDate s;
     endDate := endDate s |}.

Definition with_formState (v : FormState.t) (s : AppState) : AppState :=
  {| triggerRefresh := triggerRefresh s;
     selectedAppointment := selectedAppointment s;
     bookedAppointment := bookedAppointment s; showSpinner := showSpinner s;
     freeSlotList := freeSlotList s; coupons := coupons s;
     claimToken := claimToken s; startDateTime := startDateTime s;
     focusOnList := focusOnList s; infoboxState := infoboxState s;
     formState := v; currentTab := currentTab s; bookedList := bookedList s;
     startDate := startDate s; endDate := endDate s |}.

Definition with_currentTab (v : Tab) (s : AppState) : AppState :=
  {| triggerRefresh := triggerRefresh s;
     selectedAppointment := selectedAppointment s;
     bookedAppointment := bookedAppointment s; showSpinner := showSpinner s;
     freeSlotList := freeSlotList s; coupons := coupons s;
     claimToken := claimToken s; startDateTime := startDateTime s;
     focusOnList := focusOnList s; infoboxState := infoboxState s;
     formState := formState s; currentTab := v; bookedList := bookedList s;
     startDate := startDate s; endDate := endDate s |}.

Definition with_bookedList (v : JSValue) (s : AppState) : AppState :=
  {| triggerRefresh := triggerRefresh s;
     selectedAppointment := selectedAppointment s;
     bookedAppointment := bookedAppointment s; showSpinner := showSpinner s;
     freeSlotList := freeSlotList s; coupons := coupons s;
     claimToken := claimToken s; startDateTime := startDateTime s;
     focusOnList := focusOnList s; infoboxState := infoboxState s;
     formState := formState s; currentTab := currentTab s; bookedList := v;
     startDate := startDate s; endDate := endDate s |}.

Definition with_startDate (v : Date) (s : AppState) : AppState :=
  {| triggerRefresh := triggerRefresh s;
     selectedAppointment := selectedAppointment s;
     bookedAppointment := bookedAppointment s; showSpinner := showSpinner s;
     freeSlotList := freeSlotList s; coupons := coupons s;
     claimToken := claimToken s; startDateTime := startDateTime s;
     focusOnList := focusOnList s; infoboxState := infoboxState s;
     formState := formState s; currentTab := currentTab s;
     bookedList := bookedList s; startDate := v; endDate := endDate s |}.

Definition with_endDate (v : Date) (s : AppState) : AppState :=
  {| triggerRefresh := triggerRefresh s;
     selectedAppointment := selectedAppointment s;
     bookedAppointment := bookedAppointment s; showSpinner := showSpinner s;
     freeSlotList := freeSlotList s; coupons := coupons s;
     claimToken := claimToken s; startDateTime := startDateTime s;
     focusOnList := focusOnList s; infoboxState := infoboxState s;
     formState := formState s; currentTab := currentTab s;
     bookedList := bookedList s; startDate := startDate s; endDate := v |}.

(** ** Handlers: state updates, console output and exceptions *)

(** What a handler acts on: the state variables (through their setters) and
    the console. *)
Record Store : Type := mkStore { app : AppState; console : list Reason }.

Inductive Completion (A : Type) : Type :=
| Normal (a : A)
| Throw (e : Reason).
Arguments Normal {A} a.
Arguments Throw {A} e.

(** A handler body: it may update the store and then either returns or
    throws.  Updates made before a throw stay. *)
Definition H (A : Type) : Type := Store -> Completion A * Store.

Definition ret {A} (a : A) : H A := fun st => (Normal a, st).

Definition bind {A B} (m : H A) (k : A -> H B) : H B :=
  fun st =>
    match m st with
    | (Normal a, st') => k a st'
    | (Throw e, st') => (Throw e, st')
    end.

Definition throw {A} (e : Reason) : H A := fun st => (Throw e, st).

(** [try { m } catch (e) { handler e }] *)
Definition try_catch {A} (m : H A) (handler : Reason -> H A) : H A :=
  fun st =>
    match m st with
    | (Normal a, st') => (Normal a, st')
    | (Throw e, st') => handler e st'
    end.

Declare Scope handler_scope.
Delimit Scope handler_scope with H.
Notation "x <- m ;; k" := (bind m (fun x => k))
  (at level 100, m at next level, right associativity) : handler_scope.
Notation "m ;; k" := (bind m (fun _ => k))
  (at level 100, right associativity) : handler_scope.
Local Open Scope handler_scope.

Definition update (f : AppState -> AppState) : H unit :=
  fun st => (Normal tt, {| app := f (app st); console := console st |}).

(** The setters returned by [useState]. *)
Definition setTriggerRefresh v : H unit := update (with_triggerRefresh v).
Definition setSelectedAppointment v : H unit := update (with_selectedAppointment v).
Definition setBookedAppointment v : H unit := update (with_bookedAppointment v).
Definition setShowSpinner v : H unit := update (with_showSpinner v).
Definition setFreeSlotList v : H unit := update (with_freeSlotList v).
Definition setCoupons v : H unit := update (with_coupons v).
Definition setClaimToken v : H unit := update (with_claimToken v).
Definition setStartDateTime v : H unit := update (with_startDateTime v).
Definition setFocusOnList v : H unit := update (with_focusOnList v).
Definition setInfoboxState v : H unit := update (with_infoboxState v).
Definition setFormState v : H unit := update (with_formState v).
Definition setCurrentTab v : H unit := update (with_currentTab v).
Definition setBookedList v : H unit := update (with_bookedList v).
Definition setStartDate v : H unit := update (with_startDate v).
Definition setEndDate v : H unit := update (with_endDate v).

(** [console.error(error)] *)
Definition console_error (error : Reason) : H unit :=
  fun st => (Normal tt, {| app := app st; console := console st ++ [error] |}).

(** [error.response.status]: reading [status] of an undefined
    [error.response] throws a [TypeError]. *)
Definition error_response_status (error : Reason) : H Z :=
  match error_response error with
  | Some response => ret (status response)
  | None => throw TypeError
  end.

(** ** The API client and promise chains *)

Module Api.
(** The calls of [./Api] the component makes, with their arguments. *)
Inductive Call : Type :=
| fetchSlots
| fetchBooked (startDate endDate : string)
| claimSlot (startDateTime : string)
| unClaimSlot (claimToken : string)
| book (data : JSValue)
| logout.

(** The type of [response.data] for each call. *)
Definition payload (c : Call) : Type :=
  match c with
  | fetchSlots => SlotsData.t
  | fetchBooked _ _ => JSValue
  | claimSlot _ => string
  | unClaimSlot _ => JSValue
  | book _ => BookingData.t
  | logout => JSValue
  end.
End Api.

(** A request in flight: the call that was made, whether it was wrapped in
    [trackPromise], and the handlers chained on its promise, which run when
    the promise settles. *)
Record Request : Type := mkRequest {
  call : Api.Call;
  tracked : bool;
  settle : Outcome (Api.payload call) -> H unit
}.

Definition request (c : Api.Call) (chain : Outcome (Api.payload c) -> H unit)
  : Request :=
  {| call := c; tracked := false; settle := chain |}.

Definition trackPromise (r : Request) : Request :=
  {| call := call r; tracked := true; settle := settle r |}.

(** [promise.then(onFulfilled).catch(onRejected)]: [onRejected] also receives
    what [onFulfilled] throws; what [onRejected] throws is not handled. *)
Definition then_catch {D} (onFulfilled : Response D -> H unit)
    (onRejected : Reason -> H unit) (o : Outcome D) : H unit :=
  match o with
  | Fulfilled response => try_catch (onFulfilled response) onRejected
  | Rejected error => onRejected error
  end.

(** [promise.catch(onRejected)] *)
Definition catch {D} (onRejected : Reason -> H unit) (o : Outcome D) : H unit :=
  match o with
  | Fulfilled _ => ret tt
  | Rejected error => onRejected error
  end.

(** A promise with no handler: a rejection stays unhandled. *)
Definition unchained {D} (o : Outcome D) : H unit :=
  match o with
  | Fulfilled _ => ret tt
  | Rejected error => throw error
  end.

(** ** The component's operations

    An operation is a closure of one render: it reads the state variables
    ([claimToken], [formState], [startDate], ...) as they were in that render,
    here the argument [render].  It makes its API calls at once and returns
    them in the order made; the handlers chained on each call run later, on
    the store as it is when the promise settles. *)

Section Operations.

(** [ISOStringWithoutTimeZone] of [./utils]. *)
Variable ISOStringWithoutTimeZone : Date -> string.

Definition getSlotListData : Request :=
  request Api.fetchSlots
    (then_catch
       (fun response =>
          if (status response =? 200)%Z then
            setFreeSlotList (SlotsData.slots (data response)) ;;
            setCoupons (SlotsData.coupons (data response))
          else ret tt)
       (fun error => ret tt)).

Definition getBookedListData (render : AppState) : Request :=
  request
    (Api.fetchBooked (ISOStringWithoutTimeZone (startDate render))
                     (ISOStringWithoutTimeZone (endDate render)))
    (then_catch
       (fun response =>
          if (status response =? 200)%Z then setBookedList (data response)
          else ret tt)
       (fun error => ret tt)).

Definition refreshList : H unit := setTriggerRefresh true.

(** The [Api.unClaimSlot(claimToken).catch(...)] of [claimAppointment]. *)
Definition claimAppointment_unclaim (render : AppState) : Request :=
  request (Api.unClaimSlot (claimToken render)) (catch (fun error => ret tt)).

(** The [Api.claimSlot(startDateTime).then(...).catch(...)] of
    [claimAppointment]. *)
Definition claimAppointment_claim (render : AppState)
    (startDateTime : string) (slotLengthMin : Z) : Request :=
  request (Api.claimSlot startDateTime)
    (then_catch
       (fun response =>
          setInfoboxState (Infobox.mk FORM_INPUT "") ;;
          setStartDateTime startDateTime ;;
          setSelectedAppointment (Appointment.mk startDateTime slotLengthMin) ;;
          setClaimToken (data response) ;;
          setFormState
            (FormState.with_phone ""
               (FormState.with_name ""
                  (FormState.with_firstName "" (formState render)))) ;;
          setFocusOnList false)
       (fun error =>
          status <- error_response_status error ;;
          setInfoboxState
            (Infobox.mk ERROR
               (if (status =? 410)%Z
                then "Leider ist der Termin inzwischen nicht mehr buchbar, bitte einen anderen Termin wählen."
                else "Ein unbekannter Fehler ist aufgetreten, bitte Seite neu laden.")) ;;
          setStartDateTime "" ;;
          setClaimToken "" ;;
          setFocusOnList true)).

Definition claimAppointment (render : AppState)
    (startDateTime : string) (slotLengthMin : Z) : list Request :=
  ((if negb (String.eqb (claimToken render) "")
    then [claimAppointment_unclaim render]
    else []) ++
   [claimAppointment_claim render startDateTime slotLengthMin])%list.

Definition onBook (data' : JSValue) : Request :=
  request (Api.book data')
    (then_catch
       (fun response =>
          setInfoboxState
            (Infobox.mk APPOINTMENT_SUCCESS
               (BookingData.secret (data response))) ;;
          setStartDateTime (BookingData.time_slot (data response)) ;;
          setBookedAppointment
            (Appointment.mk
               (BookingData.time_slot (data response))
               (BookingData.slot_length_min (data response))) ;;
          setClaimToken "" ;;
          setFocusOnList true)
       (fun error =>
          status <- error_response_status error ;;
          setInfoboxState
            (Infobox.mk ERROR
               (if (status =? 410)%Z
                then "Leider ist der Termin inzwischen nicht mehr buchbar, bitte einen anderen Termin wählen."
                else "Ein unbekannter Fehler ist aufgetreten, bitte Seite neu laden.")) ;;
          setStartDateTime "" ;;
          setClaimToken "" ;;
          setFocusOnList true)).

Definition onCancelBooking (render : AppState) : Request :=
  request (Api.unClaimSlot (claimToken render))
    (then_catch
       (fun _ =>
          setInfoboxState (Infobox.mk INITIAL "") ;;
          setStartDateTime "" ;;
          setClaimToken "" ;;
          setFocusOnList true ;;
          setFormState
            (FormState.with_phone ""
               (FormState.with_name ""
                  (FormState.with_firstName "" (formState render)))))
       (fun error => console_error error)).

Definition logout : Request := request Api.logout unchained.

End Operations.

(** ** The browser's timers and the component's surroundings *)

(** The two functions the component hands to [setInterval] and
    [setTimeout]. *)
Inductive Callback : Type :=
| RefetchSlots   (* () => { trackPromise(getSlotListData()); } *)
| HideSpinner.   (* () => setShowSpinner(false) *)

Inductive TimerKind : Type :=
| Interval
| Timeout.

Record Timer : Type :=
  mkTimer { kind : TimerKind; callback : Callback; delay : Z }.

(** The component in its surroundings: the store, the requests in flight,
    the rejections no handler took, the browser's table of pending timers
    with the next free timer id, whether the component is mounted, and the
    cleanup functions the two timer effects returned last.  A cleanup is
    kept as the value of the variable it closes over ([interval], [timeout]):
    [None] is [null], [Some id] a timer id. *)
Record World : Type := mkWorld {
  store : Store;
  inflight : list Request;
  unhandled : list Reason;
  timers : gmap nat Timer;
  nextTimer : nat;
  mounted : bool;
  refreshCleanup : option (option nat);
  spinnerCleanup : option (option nat)
}.

Definition with_store (v : Store) (w : World) : World :=
  {| store := v; inflight := inflight w; unhandled := unhandled w;
     timers := timers w; nextTimer := nextTimer w; mounted := mounted w;
     refreshCleanup := refreshCleanup w;
     spinnerCleanup := spinnerCleanup w |}.

Definition with_inflight (v : list Request) (w : World) : World :=
  {| store := store w; inflight := v; unhandled := unhandled w;
     timers := timers w; nextTimer := nextTimer w; mounted := mounted w;
     refreshCleanup := refreshCleanup w;
     spinnerCleanup := spinnerCleanup w |}.

Definition with_unhandled (v : list Reason) (w : World) : World :=
  {| store := store w; inflight := inflight w; unhandled := v;
     timers := timers w; nextTimer := nextTimer w; mounted := mounted w;
     refreshCleanup := refreshCleanup w;
     spinnerCleanup := spinnerCleanup w |}.

Definition with_timers (v : gmap nat Timer) (w : World) : World :=
  {| store := store w; inflight := inflight w; unhandled := unhandled w;
     timers := v; nextTimer := nextTimer w; mounted := mounted w;
     refreshCleanup := refreshCleanup w;
     spinnerCleanup := spinnerCleanup w |}.

Definition with_nextTimer (v : nat) (w : World) : World :=
  {| store := store w; inflight := inflight w; unhandled := unhandled w;
     timers := timers w; nextTimer := v; mounted := mounted w;
     refreshCleanup := refreshCleanup w;
     spinnerCleanup := spinnerCleanup w |}.

Definition with_mounted (v : bool) (w : World) : World :=
  {| store := store w; inflight := inflight w; unhandled := unhandled w;
     timers := timers w; nextTimer := nextTimer w; mounted := v;
     refreshCleanup := refreshCleanup w;
     spinnerCleanup := spinnerCleanup w |}.

Definition with_refreshCleanup (v : option (option nat)) (w : World) : World :=
  {| store := store w; inflight := inflight w; unhandled := unhandled w;
     timers := timers w; nextTimer := nextTimer w; mounted := mounted w;
     refreshCleanup := v; spinnerCleanup := spinnerCleanup w |}.

Definition with_spinnerCleanup (v : option (option nat)) (w : World) : World :=
  {| store := store w; inflight := inflight w; unhandled := unhandled w;
     timers := timers w; nextTimer := nextTimer w; mounted := mounted w;
     refreshCleanup := refreshCleanup w; spinnerCleanup := v |}.

(** [setInterval(callback, delay)] and [setTimeout(callback, delay)] return
    the id of the new timer. *)
Definition setInterval (cb : Callback) (ms : Z) (w : World) : nat * World :=
  (nextTimer w,
   with_nextTimer (S (nextTimer w))
     (with_timers (<[nextTimer w := mkTimer Interval cb ms]> (timers w)) w)).

Definition setTimeout (cb : Callback) (ms : Z) (w : World) : nat * World :=
  (nextTimer w,
   with_nextTimer (S (nextTimer w))
     (with_timers (<[nextTimer w := mkTimer Timeout cb ms]> (timers w)) w)).

(** [clearInterval(handle)] and [clearTimeout(handle)]: with [null], or an
    id that names no timer, nothing happens. *)
Definition clearInterval (handle : option nat) (w : World) : World :=
  match handle with
  | Some id => with_timers (delete id (timers w)) w
  | None => w
  end.

Definition clearTimeout (handle : option nat) (w : World) : World :=
  match handle with
  | Some id => with_timers (delete id (timers w)) w
  | None => w
  end.

(** Running a handler body: its state updates are dropped once the component
    is unmounted, and what it throws is recorded as unhandled. *)
Definition run (m : H unit) (w : World) : World :=
  let '(c, st) := m (store w) in
  let w' :=
    with_store
      (if mounted w then st
       else {| app := app (store w); console := console st |}) w in
  match c with
  | Normal _ => w'
  | Throw e => with_unhandled (unhandled w ++ [e]) w'
  end.

(** The calls an operation made are added to the requests in flight. *)
Definition start (reqs : list Request) (w : World) : World :=
  with_inflight (inflight w ++ reqs) w.

(** ** Effect hooks, events and transitions *)

Section System.

Variable ISOStringWithoutTimeZone : Date -> string.

(** [useEffect(() => { if (focusOnList) refreshList(); else setInputFocus(); })]:
    [setInputFocus] moves the focus to the form's input element and
    changes no state variable. *)
Definition focusEffect (render : AppState) (w : World) : World :=
  if focusOnList render then run refreshList w else w.

(** [useEffect(() => { if (currentTab === TAB.BOOKED) getBookedListData(); })] *)
Definition bookedListEffect (render : AppState) (w : World) : World :=
  match currentTab render with
  | BOOKED => start [getBookedListData ISOStringWithoutTimeZone render] w
  | BOOK => w
  end.

(** The effect that refreshes once on [triggerRefresh], then every 60
    seconds.  Its cleanup is [() => clearInterval(interval)]. *)
Definition refreshEffect (render : AppState) (w : World) : World :=
  let w1 :=
    if triggerRefresh render then start [trackPromise getSlotListData] w
    else w in
  let w2 := run (setTriggerRefresh false) w1 in
  let '(interval, w3) := setInterval RefetchSlots 60000 w2 in
  with_refreshCleanup (Some (Some interval)) w3.

(** The effect that lets the spinner run for 1.25 seconds.  The id that
    [setTimeout] returns is dropped: [timeout] is still [null] in the
    cleanup [() => clearTimeout(timeout)]. *)
Definition spinnerEffect (promiseInProgress : bool) (render : AppState)
    (w : World) : World :=
  let timeout : option nat := None in
  let w1 :=
    if promiseInProgress then run (setShowSpinner true) w
    else if showSpinner render then snd (setTimeout HideSpinner 1250 w)
    else w in
  with_spinnerCleanup (Some timeout) w1.

(** Running the cleanup an effect returned last, if it has run. *)
Definition cleanupRefresh (w : World) : World :=
  match refreshCleanup w with
  | Some interval => with_refreshCleanup None (clearInterval interval w)
  | None => w
  end.

Definition cleanupSpinner (w : World) : World :=
  match spinnerCleanup w with
  | Some timeout => with_spinnerCleanup None (clearTimeout timeout w)
  | None => w
  end.

(** Teardown: every effect's cleanup runs and the component is gone. *)
Definition unmount (w : World) : World :=
  with_mounted false (cleanupSpinner (cleanupRefresh w)).

(** A timer comes due: a timeout leaves the table, an interval stays. *)
Definition fire (id : nat) (w : World) : World :=
  match timers w !! id with
  | None => w
  | Some t =>
      let w1 :=
        match kind t with
        | Timeout => with_timers (delete id (timers w)) w
        | Interval => w
        end in
      match callback t with
      | RefetchSlots => start [trackPromise getSlotListData] w1
      | HideSpinner => run (setShowSpinner false) w1
      end
  end.

(** The world before the first render's effects have run. *)
Definition first_render (render : AppState) : World :=
  {| store := {| app := render; console := [] |};
     inflight := [];
     unhandled := [];
     timers := ∅;
     nextTimer := 1;
     mounted := true;
     refreshCleanup := None;
     spinnerCleanup := None |}.

(** Mounting: the first render, then its four effects in source order. *)
Definition mount (promiseInProgress : bool) (now : Date) : World :=
  let render := initial promiseInProgress now in
  spinnerEffect promiseInProgress render
    (refreshEffect render
       (bookedListEffect render
          (focusEffect render (first_render render)))).

(** The four [useEffect] hooks.  The spinner effect also reads
    [promiseInProgress], which [usePromiseTracker] supplies in each render. *)
Inductive Hook : Type :=
| FocusHook
| BookedListHook
| RefreshHook
| SpinnerHook (promiseInProgress : bool).

(** What happens to the mounted component.  The first ten are the views
    calling what [App] passes them ([claimAppointment], [onBook],
    [onCancelBooking], [setSelectedAppointment], [refreshList],
    [setFormState], [setStartDate], [setEndDate]) and the header's
    [onClick] handlers; [Rerun] is React running an effect again after a
    render (its last cleanup first); [Settle] is the promise of the [i]-th
    request in flight settling; [Fire] is a timer coming due. *)
Inductive Event : Type :=
| Claim (startDateTime : string) (slotLengthMin : Z)
| Book (data' : JSValue)
| CancelBooking
| Logout
| SelectAppointment (a : Appointment.t)
| RefreshList
| EditForm (f : FormState.t)
| SwitchTab (t : Tab)
| PickStartDate (d : Date)
| PickEndDate (d : Date)
| Rerun (h : Hook)
| Settle (i : nat) (req : Request) (o : Outcome (Api.payload (call req)))
| Fire (id : nat)
| Unmount.

(** Operations and effects are closures of the latest render, whose state
    variables are those of the store. *)
Definition next (w : World) (e : Event) : World :=
  let render := app (store w) in
  match e with
  | Claim startDateTime slotLengthMin =>
      start (claimAppointment render startDateTime slotLengthMin) w
  | Book data' => start [onBook data'] w
  | CancelBooking => start [onCancelBooking render] w
  | Logout => start [logout] w
  | SelectAppointment a => run (setSelectedAppointment a) w
  | RefreshList => run refreshList w
  | EditForm f => run (setFormState f) w
  | SwitchTab t => run (setCurrentTab t) w
  | PickStartDate d => run (setStartDate d) w
  | PickEndDate d => run (setEndDate d) w
  | Rerun FocusHook => focusEffect render w
  | Rerun BookedListHook => bookedListEffect render w
  | Rerun RefreshHook => refreshEffect render (cleanupRefresh w)
  | Rerun (SpinnerHook promiseInProgress) =>
      spinnerEffect promiseInProgress render (cleanupSpinner w)
  | Settle i req o => run (settle req o) (with_inflight (delete i (inflight w)) w)
  | Fire id => fire id w
  | Unmount => unmount w
  end.

(** When an event can happen: a request settles only while in flight, a
    timer fires only while pending, all else needs the mounted component. *)
Definition enabled (w : World) (e : Event) : Prop :=
  match e with
  | Settle i req _ => inflight w !! i = Some req
  | Fire id => is_Some (timers w !! id)
  | _ => mounted w = true
  end.

Inductive steps : World -> list Event -> World -> Prop :=
| steps_nil w : steps w [] w
| steps_cons w e es w' :
    enabled w e -> steps (next w e) es w' -> steps w (e :: es) w'.

(** The worlds the component can be in. *)
Definition reachable (w : World) : Prop :=
  exists promiseInProgress now es, steps (mount promiseInProgress now) es w.

End System.

(** ** Notions the properties are stated with *)

(** The info-box message after a claim or booking failure that carries an
    HTTP response. *)
Definition failure_message (status : Z) : string :=
  if decide (status = 410)
  then "Leider ist der Termin inzwischen nicht mehr buchbar, bitte einen anderen Termin wählen."
  else "Ein unbekannter Fehler ist aufgetreten, bitte Seite neu laden.".

(** The token a settled call hands out: the response data of a fulfilled
    [Api.claimSlot], and none for every other call and for a rejection. *)
Definition claimed_token (c : Api.Call) : Outcome (Api.payload c) -> option string :=
  match c with
  | Api.claimSlot _ =>
      fun o => match o with
               | Fulfilled response => Some (data response)
               | Rejected _ => None
               end
  | _ => fun _ => None
  end.

Section Traces.

Variable ISOStringWithoutTimeZone : Date -> string.

(** The requests the component makes. *)
Inductive issued : Request -> Prop :=
| issued_slots : issued (trackPromise getSlotListData)
| issued_booked render :
    issued (getBookedListData ISOStringWithoutTimeZone render)
| issued_unclaim render : issued (claimAppointment_unclaim render)
| issued_claim render startDateTime slotLengthMin :
    issued (claimAppointment_claim render startDateTime slotLengthMin)
| issued_book data' : issued (onBook data')
| issued_cancel render : issued (onCancelBooking render)
| issued_logout : issued logout.

(** The timers the component sets. *)
Definition scheduled (t : Timer) : Prop :=
  t = mkTimer Interval RefetchSlots 60000 \/
  t = mkTimer Timeout HideSpinner 1250.

(** Running a list of events, and all of them being enabled in turn. *)
Definition play (w : World) (es : list Event) : World :=
  fold_left (next ISOStringWithoutTimeZone) es w.

Fixpoint all_enabled (w : World) (es : list Event) : Prop :=
  match es with
  | [] => True
  | e :: es' =>
      enabled w e /\ all_enabled (next ISOStringWithoutTimeZone w e) es'
  end.

End Traces.

(** ** Three runs of the component *)

Section Scenarios.

Variable ISOStringWithoutTimeZone : Date -> string.

(** The component is mounted while no tracked promise is pending. *)
Definition booted : World := mount ISOStringWithoutTimeZone false 0.

(** The user claims the 09:00 slot and the server hands out a token. *)
Definition first_claim : Request :=
  claimAppointment_claim (app (store booted)) "2020-05-04T09:00" 15.

Definition claiming : list Event :=
  [ Claim "2020-05-04T09:00" 15;
    Settle 1 first_claim (Fulfilled (mkResponse 200 "token-1")) ].

Definition claimed : World := play ISOStringWithoutTimeZone booted claiming.

(** Run 1.  The user then picks the 09:15 slot; the new claim gets no
    response. *)
Definition second_claim : Request :=
  claimAppointment_claim (app (store claimed)) "2020-05-04T09:15" 15.

Definition reclaiming : World :=
  next ISOStringWithoutTimeZone claimed (Claim "2020-05-04T09:15" 15).

Definition lost_claim : Event :=
  Settle 2 second_claim (Rejected (ApiError None)).

(** Run 2.  With the 09:00 slot claimed the user fills in the form, presses
    cancel, and corrects the office while the unclaim call is in flight. *)
Definition typing : list Event :=
  [ EditForm (FormState.mk "Ada" "Lovelace" "030-1234" "Nord") ].

Definition typed : World := play ISOStringWithoutTimeZone claimed typing.

Definition cancellation : Request := onCancelBooking (app (store typed)).

Definition cancelling : World :=
  play ISOStringWithoutTimeZone typed
    [ CancelBooking;
      EditForm (FormState.mk "Ada" "Lovelace" "030-1234" "Sued") ].

(** The unclaim call of the cancellation succeeds. *)
Definition released : Event :=
  Settle 1 cancellation (Fulfilled (mkResponse 200 JNull)).

(** Run 3.  The first fetch is tracked, so the spinner is switched on; the
    fetch completes and the spinner effect sets its timeout; the component
    is torn down before the timeout is due. *)
Definition teardown : list Event :=
  [ Rerun RefreshHook;
    Rerun (SpinnerHook true);
    Settle 0 (trackPromise getSlotListData)
      (Fulfilled (mkResponse 200 (SlotsData.mk (JArr []) (JArr []))));
    Rerun (SpinnerHook false);
    Unmount ].

Definition torn_down : World := play ISOStringWithoutTimeZone booted teardown.

End Scenarios.

(** ** Notions for the properties of the flow and of the timers *)


(** The appointment a settled call confirms: slot time and slot length of a
    fulfilled [Api.book], and none for every other call and for a rejection. *)
Definition booked_slot (c : Api.Call) : Outcome (Api.payload c) -> option Appointment.t :=
  match c with
  | Api.book _ =>
      fun o => match o with
               | Fulfilled response =>
                   Some (Appointment.mk
                           (BookingData.time_slot (data response))
                           (BookingData.slot_length_min (data response)))
               | Rejected _ => None
               end
  | _ => fun _ => None
  end.

(** The bookkeeping of the timer table: ids are handed out in increasing
    order; an interval in the table is the one the refresh effect's cleanup
    will clear; while the component is mounted that interval is pending, and
    after teardown no cleanup is left; the spinner effect's cleanup holds
    [null]. *)
Definition timers_inv (w : World) : Prop :=
  (forall id t, timers w !! id = Some t -> (id < nextTimer w)%nat) /\
  (forall id t, timers w !! id = Some t -> kind t = Interval ->
                refreshCleanup w = Some (Some id)) /\
  (mounted w = true ->
   exists id, refreshCleanup w = Some (Some id) /\
              timers w !! id = Some (mkTimer Interval RefetchSlots 60000)) /\
  (mounted w = false -> refreshCleanup w = None) /\
  (spinnerCleanup w = None \/ spinnerCleanup w = Some None).

(** A stand-in for [ISOStringWithoutTimeZone] in closed runs. *)
Definition plain_date (d : Date) : string := "".

Section MoreScenarios.

Variable ISOStringWithoutTimeZone : Date -> string.

(** The claim of the 09:00 slot is in flight. *)
Definition asking : World :=
  next ISOStringWithoutTimeZone (booted ISOStringWithoutTimeZone)
    (Claim "2020-05-04T09:00" 15).


(** With the 09:00 slot claimed the user submits the form and the booking is
    confirmed. *)
Definition submitting : World :=
  next ISOStringWithoutTimeZone (claimed ISOStringWithoutTimeZone)
    (Book (JObj [("name", JStr "Lovelace")])).

Definition confirmation : Event :=
  Settle 1 (onBook (JObj [("name", JStr "Lovelace")]))
    (Fulfilled
       (mkResponse 200 (BookingData.mk "secret-1" "2020-05-04T09:00" 15))).


(** The first fetch has completed and the spinner effect has set its
    timeout; the component is still mounted. *)
Definition hiding : World :=
  play ISOStringWithoutTimeZone (booted ISOStringWithoutTimeZone)
    [ Rerun RefreshHook;
      Rerun (SpinnerHook true);
      Settle 0 (trackPromise getSlotListData)
        (Fulfilled (mkResponse 200 (SlotsData.mk (JArr []) (JArr []))));
      Rerun (SpinnerHook false) ].

End MoreScenarios.

(** * Properties *)

(** ** What the handlers of each operation do *)

Section HandlerProperties.

Variable ISOStringWithoutTimeZone : Date -> string.

(** C3.  Claiming a slot calls [Api.claimSlot] with the slot's start time,
    as the last call [claimAppointment] makes.  When the call succeeds the
    response data becomes the claim token, the selected appointment is the
    start time and slot length given, and the info-box is in the form-input
    state.  A failure with HTTP status 410 puts the info-box in the error
    state with the message that the slot can no longer be booked. *)
Theorem claimAppointment_claims_slot (render : AppState)
    (startDateTime : string) (slotLengthMin : Z) (st : Store) :
  let req := claimAppointment_claim render startDateTime slotLengthMin in
  last (claimAppointment render startDateTime slotLengthMin) = Some req /\
  call req = Api.claimSlot startDateTime /\
  (forall response : Response string,
     let r := settle req (Fulfilled response) st in
     fst r = Normal tt /\
     claimToken (app (snd r)) = data response /\
     selectedAppointment (app (snd r)) =
       Appointment.mk startDateTime slotLengthMin /\
     infoboxState (app (snd r)) = Infobox.mk FORM_INPUT "") /\
  (forall body : JSValue,
     let r := settle req (Rejected (ApiError (Some (mkResponse 410 body)))) st in
     fst r = Normal tt /\
     infoboxState (app (snd r)) =
       Infobox.mk ERROR
         "Leider ist der Termin inzwischen nicht mehr buchbar, bitte einen anderen Termin wählen.").
Proof.
  cbn zeta. split; [|split; [reflexivity|split]].
  - unfold claimAppointment.
    destruct (negb (claimToken render =? "")%string); reflexivity.
  - intros response. repeat split.
  - intros body. repeat split.
Qed.

(** C4.  When a booking submission succeeds, the response's confirmation
    secret is the info-box message, in the success state; the booked
    appointment is the response's slot time and slot length; the claim token
    is the empty string. *)
Theorem onBook_success (data' : JSValue) (response : Response BookingData.t)
    (st : Store) :
  let r := settle (onBook data') (Fulfilled response) st in
  fst r = Normal tt /\
  infoboxState (app (snd r)) =
    Infobox.mk APPOINTMENT_SUCCESS (BookingData.secret (data response)) /\
  bookedAppointment (app (snd r)) =
    Appointment.mk (BookingData.time_slot (data response))
                   (BookingData.slot_length_min (data response)) /\
  claimToken (app (snd r)) = "".
Proof. repeat split. Qed.

(** C6.  Cancelling a booking makes one call, [Api.unClaimSlot] with the
    claim token of the store at that moment.  When that call succeeds the
    info-box is back in the initial state with an empty message, the start
    time and the claim token are empty strings, the form's first name, name
    and phone are empty, and the focus is on the slot list. *)
Theorem onCancelBooking_releases_and_resets (w : World)
    (response : Response JSValue) (st : Store) :
  let req := onCancelBooking (app (store w)) in
  inflight (next ISOStringWithoutTimeZone w CancelBooking) =
    (inflight w ++ [req])%list /\
  call req = Api.unClaimSlot (claimToken (app (store w))) /\
  let r := settle req (Fulfilled response) st in
  fst r = Normal tt /\
  infoboxState (app (snd r)) = Infobox.mk INITIAL "" /\
  startDateTime (app (snd r)) = "" /\
  claimToken (app (snd r)) = "" /\
  FormState.firstName (formState (app (snd r))) = "" /\
  FormState.name (formState (app (snd r))) = "" /\
  FormState.phone (formState (app (snd r))) = "" /\
  focusOnList (app (snd r)) = true.
Proof. repeat split. Qed.

(** C7.  A failed unclaim or logout changes no state variable, so no
    message is shown.  The unclaim made before a new claim ignores the
    error; the unclaim of a cancellation writes it to the console and does
    nothing else; the logout call has no handler, so the rejection stays
    unhandled and neither the state nor the console changes. *)
Theorem unclaim_logout_failures_are_silent (render : AppState)
    (error : Reason) (st : Store) :
  settle (claimAppointment_unclaim render) (Rejected error) st
    = (Normal tt, st) /\
  settle (onCancelBooking render) (Rejected error) st
    = (Normal tt, {| app := app st; console := console st ++ [error] |}) /\
  settle logout (Rejected error) st = (Throw error, st).
Proof. repeat split. Qed.

(** The calls [claimAppointment] makes, in order. *)
Lemma claimAppointment_calls (render : AppState)
    (startDateTime : string) (slotLengthMin : Z) :
  map call (claimAppointment render startDateTime slotLengthMin) =
    if decide (claimToken render = "")
    then [Api.claimSlot startDateTime]
    else [Api.unClaimSlot (claimToken render); Api.claimSlot startDateTime].
Proof.
  unfold claimAppointment.
  destruct (decide (claimToken render = "")) as [Heq | Hne].
  - rewrite Heq. reflexivity.
  - apply String.eqb_neq in Hne. rewrite Hne. reflexivity.
Qed.

(** C8.  When [claimAppointment] is invoked while the claim token in the
    store is not the empty string, it first calls [Api.unClaimSlot] with
    that token and then [Api.claimSlot] for the new slot; when the token is
    the empty string it calls [Api.claimSlot] alone. *)
Theorem claimAppointment_unclaims_old_token_first (w : World)
    (startDateTime : string) (slotLengthMin : Z) :
  let token := claimToken (app (store w)) in
  map call
    (inflight (next ISOStringWithoutTimeZone w
                 (Claim startDateTime slotLengthMin))) =
    map call (inflight w) ++
    (if decide (token = "")
     then [Api.claimSlot startDateTime]
     else [Api.unClaimSlot token; Api.claimSlot startDateTime]).
Proof.
  cbn -[claimAppointment]. rewrite map_app, claimAppointment_calls.
  reflexivity.
Qed.

(** C10.  The slot-list fetch sets the free-slot list and the coupons, and
    the booking-history fetch sets the booked list, exactly when the
    response status is 200.  With any other status, and when the promise is
    rejected, whatever the reason, the store is left as it was and the
    handler returns normally. *)
Theorem fetches_update_only_on_status_200 (render : AppState) (st : Store) :
  (forall response : Response SlotsData.t,
     settle getSlotListData (Fulfilled response) st =
       (Normal tt,
        if decide (status response = 200)
        then {| app := with_coupons (SlotsData.coupons (data response))
                         (with_freeSlotList (SlotsData.slots (data response))
                            (app st));
                console := console st |}
        else st)) /\
  (forall error : Reason,
     settle getSlotListData (Rejected error) st = (Normal tt, st)) /\
  (forall response : Response JSValue,
     settle (getBookedListData ISOStringWithoutTimeZone render)
            (Fulfilled response) st =
       (Normal tt,
        if decide (status response = 200)
        then {| app := with_bookedList (data response) (app st);
                console := console st |}
        else st)) /\
  (forall error : Reason,
     settle (getBookedListData ISOStringWithoutTimeZone render)
            (Rejected error) st = (Normal tt, st)).
Proof.
  repeat split; try reflexivity; intros response; cbn;
    unfold try_catch, bind, ret;
    destruct (decide (status response = 200)) as [Heq | Hne].
  - rewrite Heq. reflexivity.
  - apply Z.eqb_neq in Hne. rewrite Hne. reflexivity.
  - rewrite Heq. reflexivity.
  - apply Z.eqb_neq in Hne. rewrite Hne. reflexivity.
Qed.

Lemma failure_message_410 (status : Z) :
  failure_message status =
    "Leider ist der Termin inzwischen nicht mehr buchbar, bitte einen anderen Termin wählen."
  <-> status = 410.
Proof.
  unfold failure_message. destruct (decide (status = 410)); split; intros;
    congruence.
Qed.

Lemma eqb_410_message (status : Z) :
  (if (status =? 410)%Z
   then "Leider ist der Termin inzwischen nicht mehr buchbar, bitte einen anderen Termin wählen."
   else "Ein unbekannter Fehler ist aufgetreten, bitte Seite neu laden.")
  = failure_message status.
Proof.
  unfold failure_message. destruct (decide (status = 410)) as [Heq | Hne].
  - rewrite Heq. reflexivity.
  - apply Z.eqb_neq in Hne. rewrite Hne. reflexivity.
Qed.

(** When the server answered, a failed claim puts the info-box in the error
    state with the message for the status, clears the start time and the
    claim token and moves the focus to the slot list. *)
Lemma claim_failure_with_response (render : AppState)
    (startDateTime : string) (slotLengthMin : Z)
    (response : Response JSValue) (st : Store) :
  settle (claimAppointment_claim render startDateTime slotLengthMin)
         (Rejected (ApiError (Some response))) st =
    (Normal tt,
     {| app := with_focusOnList true
                 (with_claimToken ""
                    (with_startDateTime ""
                       (with_infoboxState
                          (Infobox.mk ERROR (failure_message (status response)))
                          (app st))));
        console := console st |}).
Proof. cbn. unfold bind, ret. cbn. rewrite eqb_410_message. reflexivity. Qed.

(** The same for a failed booking. *)
Lemma book_failure_with_response (data' : JSValue)
    (response : Response JSValue) (st : Store) :
  settle (onBook data') (Rejected (ApiError (Some response))) st =
    (Normal tt,
     {| app := with_focusOnList true
                 (with_claimToken ""
                    (with_startDateTime ""
                       (with_infoboxState
                          (Infobox.mk ERROR (failure_message (status response)))
                          (app st))));
        console := console st |}).
Proof. cbn. unfold bind, ret. cbn. rewrite eqb_410_message. reflexivity. Qed.

(** C2, at a failure without an HTTP response (the request never reached
    the server, or no answer came back): [error.response] is undefined, the
    [catch] handler of [claimAppointment] and of [onBook] throws on
    [error.response.status] before its first setter call, and the store,
    with its info-box, stays as it was.  Neither message is shown. *)
Theorem failure_without_response_shows_no_message (render : AppState)
    (startDateTime : string) (slotLengthMin : Z) (data' : JSValue)
    (st : Store) :
  settle (claimAppointment_claim render startDateTime slotLengthMin)
         (Rejected (ApiError None)) st = (Throw TypeError, st) /\
  settle (onBook data') (Rejected (ApiError None)) st = (Throw TypeError, st).
Proof. split; reflexivity. Qed.

(** C9, as the code has it.  On a successful claim and on a successful
    cancellation the new form state has empty [firstName], [name] and
    [phone], and its [office] is the one of the form state of the render in
    which the operation was started. *)
Theorem form_reset_keeps_office_of_render (render : AppState)
    (startDateTime : string) (slotLengthMin : Z)
    (token : Response string) (released : Response JSValue) (st : Store) :
  formState
    (app (snd (settle
                 (claimAppointment_claim render startDateTime slotLengthMin)
                 (Fulfilled token) st))) =
    FormState.mk "" "" "" (FormState.office (formState render)) /\
  formState
    (app (snd (settle (onCancelBooking render) (Fulfilled released) st))) =
    FormState.mk "" "" "" (FormState.office (formState render)).
Proof. split; reflexivity. Qed.

End HandlerProperties.

(** ** The component in its surroundings *)

Section WorldProperties.

Variable ISOStringWithoutTimeZone : Date -> string.

Local Abbreviation next := (next ISOStringWithoutTimeZone).
Local Abbreviation steps := (steps ISOStringWithoutTimeZone).
Local Abbreviation reachable := (reachable ISOStringWithoutTimeZone).
Local Abbreviation mount := (mount ISOStringWithoutTimeZone).
Local Abbreviation play := (play ISOStringWithoutTimeZone).
Local Abbreviation all_enabled := (all_enabled ISOStringWithoutTimeZone).
Local Abbreviation issued := (issued ISOStringWithoutTimeZone).

(** *** Runs *)

Lemma steps_snoc w es w' e :
  steps w es w' -> enabled w' e -> steps w (es ++ [e]) (next w' e).
Proof.
  induction 1 as [w | w e0 es w' He0 Hsteps IH]; intros He; cbn.
  - apply steps_cons; [assumption | apply steps_nil].
  - apply steps_cons; [assumption | apply IH, He].
Qed.

Lemma reachable_mount promiseInProgress now :
  reachable (mount promiseInProgress now).
Proof. exists promiseInProgress, now, []. apply steps_nil. Qed.

Lemma reachable_next w e : reachable w -> enabled w e -> reachable (next w e).
Proof.
  intros (p & now & es & Hsteps) He.
  exists p, now, (es ++ [e]). apply steps_snoc; assumption.
Qed.

Lemma reachable_play w es :
  reachable w -> all_enabled w es -> reachable (play w es).
Proof.
  revert w. induction es as [| e es IH]; intros w Hw Hen; cbn in *.
  - assumption.
  - destruct Hen as [He Hes]. apply IH; [apply reachable_next|]; assumption.
Qed.

(** Induction over the reachable worlds. *)
Lemma reachable_induction (P : World -> Prop) :
  (forall promiseInProgress now, P (mount promiseInProgress now)) ->
  (forall w e, reachable w -> P w -> enabled w e -> P (next w e)) ->
  forall w, reachable w -> P w.
Proof.
  intros Hmount Hnext w (p & now & es & Hsteps).
  assert (Hgen : forall w0 es w1,
             steps w0 es w1 -> reachable w0 -> P w0 -> P w1).
  { clear - Hnext. induction 1 as [w | w e es w' He Hsteps IH]; intros Hr HP.
    - assumption.
    - apply IH; [apply reachable_next | apply Hnext]; assumption. }
  apply (Hgen _ _ _ Hsteps); [apply reachable_mount | apply Hmount].
Qed.

(** *** What [run] leaves alone *)

Lemma inflight_run m w : inflight (run m w) = inflight w.
Proof. unfold run. destruct (m (store w)) as [[a | e] st]; reflexivity. Qed.

Lemma timers_run m w : timers (run m w) = timers w.
Proof. unfold run. destruct (m (store w)) as [[a | e] st]; reflexivity. Qed.

Lemma mounted_run m w : mounted (run m w) = mounted w.
Proof. unfold run. destruct (m (store w)) as [[a | e] st]; reflexivity. Qed.

Lemma app_store_run m w :
  app (store (run m w)) =
    if mounted w then app (snd (m (store w))) else app (store w).
Proof.
  unfold run. destruct (m (store w)) as [[a | e] st]; cbn;
    destruct (mounted w); reflexivity.
Qed.

(** *** Every request in flight was made by one of the operations *)

Lemma issued_claimAppointment render startDateTime slotLengthMin :
  Forall issued (claimAppointment render startDateTime slotLengthMin).
Proof.
  unfold claimAppointment.
  destruct (negb (claimToken render =? "")%string);
    repeat constructor.
Qed.


Lemma inflight_issued w : reachable w -> Forall issued (inflight w).
Proof.
  revert w. apply reachable_induction; [intros p now | intros w e Hw IH He].
  - destruct p; cbn; repeat constructor.
  - destruct e as [s l | d | | | a | | f | t | d | d | h | i req o | id |];
      cbn -[claimAppointment]; rewrite ?inflight_run; cbn -[claimAppointment]; try assumption.
    + apply Forall_app; split; [assumption | apply issued_claimAppointment].
    + apply Forall_app; split; [assumption | repeat constructor].
    + apply Forall_app; split; [assumption | repeat constructor].
    + apply Forall_app; split; [assumption | repeat constructor].
    + destruct h as [| | | p]; cbn.
      * unfold focusEffect. destruct (focusOnList _);
          rewrite ?inflight_run; assumption.
      * unfold bookedListEffect. destruct (currentTab _); cbn;
          [assumption |].
        apply Forall_app; split; [assumption | repeat constructor].
      * unfold cleanupRefresh.
        destruct (refreshCleanup w) as [[id |] |], (triggerRefresh _); cbn;
          try assumption;
          apply Forall_app; split; try assumption; repeat constructor.
      * unfold spinnerEffect, cleanupSpinner.
        destruct (spinnerCleanup w) as [[id |] |], p; cbn;
          rewrite ?inflight_run; cbn; try assumption;
          destruct (showSpinner _); cbn; assumption.
    + apply Forall_delete, IH.
    + unfold fire. destruct (timers w !! id) as [t |]; [| assumption].
      destruct (kind t), (callback t); cbn; rewrite ?inflight_run; cbn;
        try assumption;
        apply Forall_app; split; try assumption; repeat constructor.
    + unfold unmount, cleanupSpinner, cleanupRefresh.
      destruct (refreshCleanup w) as [[id |] |]; cbn;
        destruct (spinnerCleanup w) as [[id' |] |]; cbn; assumption.
Qed.


(** *** Every pending timer is one of the two the component sets *)

Ltac timers_ok :=
  repeat first
    [ assumption
    | apply map_Forall_empty
    | apply map_Forall_delete
    | apply map_Forall_insert_2; [unfold scheduled; auto |] ].

Lemma timers_scheduled w :
  reachable w -> map_Forall (fun _ t => scheduled t) (timers w).
Proof.
  revert w. apply reachable_induction; [intros p now | intros w e Hw IH He].
  - destruct p; cbn; timers_ok.
  - destruct e as [s l | d | | | a | | f | t | d | d | h | i req o | id |];
      cbn -[claimAppointment]; rewrite ?timers_run; try assumption.
    + destruct h as [| | | p]; cbn.
      * unfold focusEffect. destruct (focusOnList _);
          rewrite ?timers_run; assumption.
      * unfold bookedListEffect. destruct (currentTab _); assumption.
      * unfold cleanupRefresh.
        destruct (refreshCleanup w) as [[id |] |], (triggerRefresh _); cbn;
          timers_ok.
      * unfold spinnerEffect, cleanupSpinner.
        destruct (spinnerCleanup w) as [[id |] |], p; cbn;
          rewrite ?timers_run; cbn; timers_ok;
          destruct (showSpinner _); cbn; timers_ok.
    + unfold fire. destruct (timers w !! id) as [t |]; [| assumption].
      destruct (kind t), (callback t); cbn; rewrite ?timers_run; cbn;
        timers_ok.
    + unfold unmount, cleanupSpinner, cleanupRefresh.
      destruct (refreshCleanup w) as [[id |] |]; cbn;
        destruct (spinnerCleanup w) as [[id' |] |]; cbn; timers_ok.
Qed.

(** *** How the claim token changes *)

Ltac token_unchanged :=
  cbn -[claimAppointment]; rewrite ?app_store_run; cbn -[claimAppointment];
  repeat match goal with
         | |- context [if ?b then _ else _] =>
             destruct b; cbn -[claimAppointment]
         end;
  left; reflexivity.

Lemma settle_claimToken req :
  issued req ->
  forall (o : Outcome (Api.payload (call req))) (st : Store),
    let st' := snd (settle req o st) in
    claimToken (app st') = claimToken (app st) \/
    claimToken (app st') = "" \/
    exists startDateTime slotLengthMin,
      call req = Api.claimSlot startDateTime /\
      claimed_token (call req) o = Some (claimToken (app st')) /\
      selectedAppointment (app st') =
        Appointment.mk startDateTime slotLengthMin.
Proof.
  intros Hissued.
  destruct Hissued as [| render | render | render s l | d | render |];
    intros [response | error] st; cbn;
    try (left; reflexivity); try (right; left; reflexivity).
  - destruct (_ =? _); left; reflexivity.
  - destruct (_ =? _); left; reflexivity.
  - right; right. exists s, l. repeat split.
  - destruct error as [[response |] |]; cbn;
      [right; left | left | left]; reflexivity.
  - destruct error as [[response |] |]; cbn;
      [right; left | left | left]; reflexivity.
Qed.

(** X17.  In every step of a reachable world the claim token stays as it is,
    or becomes the empty string, or becomes the response data of an
    [Api.claimSlot] call that succeeded in that step, and then the selected
    appointment is the slot that call was made for. *)
Lemma claimToken_set_only_by_claim w e :
  reachable w -> enabled w e ->
  let w' := next w e in
  claimToken (app (store w')) = claimToken (app (store w)) \/
  claimToken (app (store w')) = "" \/
  exists i req o startDateTime slotLengthMin,
    e = Settle i req o /\
    call req = Api.claimSlot startDateTime /\
    claimed_token (call req) o = Some (claimToken (app (store w'))) /\
    selectedAppointment (app (store w')) =
      Appointment.mk startDateTime slotLengthMin.
Proof.
  intros Hw He.
  destruct e as [s l | d | | | a | | f | t | d | d | h | i req o | id |];
    try (token_unchanged).
  - destruct h as [| | | p]; cbn.
    + unfold focusEffect. token_unchanged.
    + unfold bookedListEffect. destruct (currentTab _); token_unchanged.
    + unfold cleanupRefresh.
      destruct (refreshCleanup w) as [[id |] |]; token_unchanged.
    + unfold spinnerEffect, cleanupSpinner.
      destruct (spinnerCleanup w) as [[id |] |]; token_unchanged.
  - cbn. rewrite app_store_run. cbn.
    destruct (mounted w); [| left; reflexivity].
    assert (Hissued : issued req).
    { eapply Forall_lookup_1; [apply inflight_issued, Hw | apply He]. }
    destruct (settle_claimToken req Hissued o (store w))
      as [Hsame | [Hempty | (s & l & Hcall & Htoken & Hsel)]].
    + left; assumption.
    + right; left; assumption.
    + right; right. exists i, req, o, s, l. repeat split; assumption.
  - cbn. unfold fire. destruct (timers w !! id) as [t |]; [| left; reflexivity].
    destruct (kind t), (callback t); token_unchanged.
  - cbn. unfold unmount, cleanupSpinner, cleanupRefresh.
    destruct (refreshCleanup w) as [[id |] |]; cbn;
      destruct (spinnerCleanup w) as [[id' |] |]; left; reflexivity.
Qed.

(** *** The three runs *)

Ltac run_enabled :=
  vm_compute; repeat split; try (eexists; reflexivity).

Lemma reachable_claimed : reachable (claimed ISOStringWithoutTimeZone).
Proof.
  apply reachable_play; [apply reachable_mount | run_enabled].
Qed.

Lemma reachable_reclaiming : reachable (reclaiming ISOStringWithoutTimeZone).
Proof.
  apply reachable_next; [apply reachable_claimed | vm_compute; reflexivity].
Qed.

Lemma reachable_cancelling : reachable (cancelling ISOStringWithoutTimeZone).
Proof.
  apply reachable_play; [| run_enabled].
  apply reachable_play; [apply reachable_claimed | run_enabled].
Qed.

Lemma reachable_torn_down : reachable (torn_down ISOStringWithoutTimeZone).
Proof.
  apply reachable_play; [apply reachable_mount | run_enabled].
Qed.

(** In the second run the office reads [Sued] while the unclaim call is in
    flight and [Nord] once it has succeeded. *)
Lemma cancellation_writes_back_office :
  enabled (cancelling ISOStringWithoutTimeZone)
          (released ISOStringWithoutTimeZone) /\
  FormState.office
    (formState (app (store (cancelling ISOStringWithoutTimeZone)))) = "Sued" /\
  FormState.office
    (formState
       (app (store (next (cancelling ISOStringWithoutTimeZone)
                      (released ISOStringWithoutTimeZone))))) = "Nord".
Proof.
  split; [vm_compute; reflexivity |].
  split; vm_compute; reflexivity.
Qed.

(** *** Timers and teardown *)

Lemma nextTimer_run m w : nextTimer (run m w) = nextTimer w.
Proof. unfold run. destruct (m (store w)) as [[a | e] st]; reflexivity. Qed.

(** The cleanup of the refresh effect cancels the interval the effect
    set. *)
Lemma refresh_cleanup_clears_interval render w :
  timers (cleanupRefresh (refreshEffect render w)) !! nextTimer w = None.
Proof.
  unfold refreshEffect. cbn. destruct (triggerRefresh render); cbn;
    apply lookup_delete_eq.
Qed.

(** The cleanup of the spinner effect leaves the timeout the effect set
    pending. *)
Lemma spinner_cleanup_keeps_timeout render w :
  showSpinner render = true ->
  timers (cleanupSpinner (spinnerEffect false render w)) !! nextTimer w =
    Some (mkTimer Timeout HideSpinner 1250).
Proof.
  intros Hshow. unfold spinnerEffect. rewrite Hshow. cbn.
  apply lookup_insert_eq.
Qed.

(** C5, at a teardown while the spinner's timeout is pending.  The run
    mounts the component, lets the first fetch complete and tears the
    component down.  Afterwards the interval is gone, but the one-shot timer
    that hides the spinner after 1250 ms is still in the browser's table and
    can fire: the cleanup calls [clearTimeout] with [null], since the id
    returned by [setTimeout] was never stored. *)
Theorem spinner_timeout_survives_teardown :
  reachable (torn_down ISOStringWithoutTimeZone) /\
  mounted (torn_down ISOStringWithoutTimeZone) = false /\
  timers (torn_down ISOStringWithoutTimeZone) = {[ 3%nat := mkTimer Timeout HideSpinner 1250 ]} /\
  enabled (torn_down ISOStringWithoutTimeZone) (Fire 3).
Proof.
  split; [apply reachable_torn_down |].
  split; [reflexivity |].
  split; [vm_compute; reflexivity |].
  vm_compute. eexists; reflexivity.
Qed.

(** C1, at a claim failure without an HTTP response.  With the 09:00 slot
    claimed the user picks the 09:15 slot; the old token is sent to
    [Api.unClaimSlot] and the new claim is rejected without a response.
    The [catch] handler throws before [setClaimToken("")]: the claim token is
    still the old one, the info-box still shows the form, and the rejection
    is unhandled. *)
Theorem claim_failure_without_response_keeps_token :
  reachable (reclaiming ISOStringWithoutTimeZone) /\
  enabled (reclaiming ISOStringWithoutTimeZone) (lost_claim ISOStringWithoutTimeZone) /\
  map call (inflight (reclaiming ISOStringWithoutTimeZone)) =
    [Api.fetchSlots; Api.unClaimSlot "token-1";
     Api.claimSlot "2020-05-04T09:15"] /\
  let w' := next (reclaiming ISOStringWithoutTimeZone) (lost_claim ISOStringWithoutTimeZone) in
  claimToken (app (store w')) = "token-1" /\
  infoboxState (app (store w')) = Infobox.mk FORM_INPUT "" /\
  unhandled w' = [TypeError].
Proof.
  split; [apply reachable_reclaiming |].
  split; [vm_compute; reflexivity |].
  split; [vm_compute; reflexivity |].
  cbv zeta.
  split; [vm_compute; reflexivity |].
  split; vm_compute; reflexivity.
Qed.
(** *** The info-box, the claim token and the focus go together *)








(** *** Which steps write the booked appointment, the console and the
    unhandled rejections *)

Lemma settle_bookedAppointment req :
  issued req ->
  forall (o : Outcome (Api.payload (call req))) (st : Store),
    let st' := snd (settle req o st) in
    bookedAppointment (app st') = bookedAppointment (app st) \/
    exists data',
      call req = Api.book data' /\
      booked_slot (call req) o = Some (bookedAppointment (app st')) /\
      Infobox.state (infoboxState (app st')) = APPOINTMENT_SUCCESS /\
      claimToken (app st') = "".
Proof.
  intros Hissued.
  destruct Hissued as [| render | render | render s l | d | render |];
    intros [response | error] st; cbn;
    try (left; reflexivity).
  - destruct (_ =? _); left; reflexivity.
  - destruct (_ =? _); left; reflexivity.
  - destruct error as [[response |] |]; left; reflexivity.
  - right. exists d. repeat split.
  - destruct error as [[response |] |]; left; reflexivity.
Qed.

(** X5.  In every step of a reachable world the booked appointment stays as
    it is, unless an [Api.book] call succeeds in that step; then it is the
    slot time and slot length of that response, the info-box is in the
    success state and the claim token is the empty string. *)
Theorem bookedAppointment_set_only_by_booking w e :
  reachable w -> enabled w e ->
  let w' := next w e in
  bookedAppointment (app (store w')) = bookedAppointment (app (store w)) \/
  exists i req o data',
    e = Settle i req o /\
    call req = Api.book data' /\
    booked_slot (call req) o = Some (bookedAppointment (app (store w'))) /\
    Infobox.state (infoboxState (app (store w'))) = APPOINTMENT_SUCCESS /\
    claimToken (app (store w')) = "".
Proof.
  intros Hw He.
  destruct e as [s l | d | | | a | | f | t | d | d | h | i req o | id |];
    try (token_unchanged).
  - destruct h as [| | | p]; cbn.
    + unfold focusEffect. token_unchanged.
    + unfold bookedListEffect. destruct (currentTab _); token_unchanged.
    + unfold cleanupRefresh.
      destruct (refreshCleanup w) as [[id |] |]; token_unchanged.
    + unfold spinnerEffect, cleanupSpinner.
      destruct (spinnerCleanup w) as [[id |] |]; token_unchanged.
  - cbn. rewrite app_store_run. cbn.
    destruct (mounted w); [| left; reflexivity].
    assert (Hissued : issued req).
    { eapply Forall_lookup_1; [apply inflight_issued, Hw | apply He]. }
    destruct (settle_bookedAppointment req Hissued o (store w))
      as [Hsame | (d & Hcall & Hslot & Hstate & Htoken)].
    + left; assumption.
    + right. exists i, req, o, d. repeat split; assumption.
  - cbn. unfold fire. destruct (timers w !! id) as [t |]; [| left; reflexivity].
    destruct (kind t), (callback t); token_unchanged.
  - cbn. unfold unmount, cleanupSpinner, cleanupRefresh.
    destruct (refreshCleanup w) as [[id |] |]; cbn;
      destruct (spinnerCleanup w) as [[id' |] |]; left; reflexivity.
Qed.

Lemma unhandled_run m w :
  unhandled (run m w) =
    match fst (m (store w)) with
    | Normal _ => unhandled w
    | Throw e => unhandled w ++ [e]
    end.
Proof. unfold run. destruct (m (store w)) as [[a | e] st]; reflexivity. Qed.

Lemma console_store_run m w :
  console (store (run m w)) = console (snd (m (store w))).
Proof.
  unfold run. destruct (m (store w)) as [[a | e] st]; cbn;
    destruct (mounted w); reflexivity.
Qed.

Ltac quiet :=
  cbn -[claimAppointment];
  rewrite ?unhandled_run, ?console_store_run; cbn -[claimAppointment];
  repeat match goal with
         | |- context [if ?b then _ else _] =>
             destruct b; cbn -[claimAppointment];
             rewrite ?unhandled_run, ?console_store_run; cbn -[claimAppointment]
         end;
  left; reflexivity.


(** X7.  In every step of a reachable world the console stays as it is,
    except when the unclaim call of a cancellation is rejected: then the
    error is appended, and no state variable changes.  No other failure is
    written to the console. *)
Theorem console_only_from_failed_cancel w e :
  reachable w -> enabled w e ->
  let w' := next w e in
  console (store w') = console (store w) \/
  exists i render error,
    e = Settle i (onCancelBooking render) (Rejected error) /\
    console (store w') = console (store w) ++ [error] /\
    app (store w') = app (store w).
Proof.
  intros Hw He.
  destruct e as [s l | d | | | a | | f | t | d | d | h | i req o | id |];
    try quiet.
  - destruct h as [| | | p]; cbn.
    + unfold focusEffect. quiet.
    + unfold bookedListEffect. destruct (currentTab _); quiet.
    + unfold cleanupRefresh.
      destruct (refreshCleanup w) as [[id |] |]; quiet.
    + unfold spinnerEffect, cleanupSpinner.
      destruct (spinnerCleanup w) as [[id |] |]; quiet.
  - assert (Hissued : issued req).
    { eapply Forall_lookup_1; [apply inflight_issued, Hw | apply He]. }
    clear He. cbn. rewrite console_store_run, app_store_run. cbn.
    destruct Hissued as [| render | render | render s l | d | render |];
      destruct o as [response | error]; cbn;
      try (left; reflexivity).
    + destruct (_ =? _); left; reflexivity.
    + destruct (_ =? _); left; reflexivity.
    + destruct error as [[response |] |]; left; reflexivity.
    + destruct error as [[response |] |]; left; reflexivity.
    + right. exists i, render, error. repeat split.
      destruct (mounted w); reflexivity.
  - cbn. unfold fire. destruct (timers w !! id) as [t |]; [| left; reflexivity].
    destruct (kind t), (callback t); quiet.
  - cbn. unfold unmount, cleanupSpinner, cleanupRefresh.
    destruct (refreshCleanup w) as [[id |] |]; cbn;
      destruct (spinnerCleanup w) as [[id' |] |]; left; reflexivity.
Qed.

(** *** The timer table *)

Lemma refreshCleanup_run m w : refreshCleanup (run m w) = refreshCleanup w.
Proof. unfold run. destruct (m (store w)) as [[a | e] st]; reflexivity. Qed.

Lemma spinnerCleanup_run m w : spinnerCleanup (run m w) = spinnerCleanup w.
Proof. unfold run. destruct (m (store w)) as [[a | e] st]; reflexivity. Qed.

Ltac bookkeeping :=
  cbn -[claimAppointment];
  rewrite ?timers_run, ?nextTimer_run, ?mounted_run, ?refreshCleanup_run,
    ?spinnerCleanup_run;
  cbn -[claimAppointment];
  repeat match goal with
         | |- context [if ?b then _ else _] =>
             destruct b; cbn -[claimAppointment];
             rewrite ?timers_run, ?nextTimer_run, ?mounted_run,
               ?refreshCleanup_run, ?spinnerCleanup_run;
             cbn -[claimAppointment]
         end;
  try reflexivity.

(** The timer table after a step. *)
Lemma timers_next w e :
  spinnerCleanup w = None \/ spinnerCleanup w = Some None ->
  timers (next w e) =
    match e with
    | Rerun RefreshHook =>
        <[nextTimer w := mkTimer Interval RefetchSlots 60000]>
          (match refreshCleanup w with
           | Some (Some id) => delete id (timers w)
           | _ => timers w
           end)
    | Rerun (SpinnerHook promiseInProgress) =>
        if promiseInProgress then timers w
        else if showSpinner (app (store w))
             then <[nextTimer w := mkTimer Timeout HideSpinner 1250]> (timers w)
             else timers w
    | Fire id =>
        match timers w !! id with
        | Some t =>
            match kind t with
            | Timeout => delete id (timers w)
            | Interval => timers w
            end
        | None => timers w
        end
    | Unmount =>
        match refreshCleanup w with
        | Some (Some id) => delete id (timers w)
        | _ => timers w
        end
    | _ => timers w
    end.
Proof.
  intros Hsc.
  destruct e as [s l | d | | | a | | f | t | d | d | h | i req o | id |];
    try (bookkeeping; fail).
  - destruct h as [| | | p]; cbn.
    + unfold focusEffect. bookkeeping.
    + unfold bookedListEffect. destruct (currentTab _); reflexivity.
    + unfold cleanupRefresh.
      destruct (refreshCleanup w) as [[id |] |]; bookkeeping.
    + unfold spinnerEffect, cleanupSpinner.
      destruct Hsc as [-> | ->]; bookkeeping.
  - cbn. unfold fire. destruct (timers w !! id) as [t |]; [| reflexivity].
    destruct (kind t), (callback t); bookkeeping.
  - cbn. unfold unmount, cleanupSpinner, cleanupRefresh.
    destruct (refreshCleanup w) as [[id |] |]; cbn;
      destruct Hsc as [-> | ->]; reflexivity.
Qed.

(** The next timer id, the mounted flag and the two cleanups after a step. *)
Lemma bookkeeping_next w e :
  nextTimer (next w e) =
    match e with
    | Rerun RefreshHook => S (nextTimer w)
    | Rerun (SpinnerHook promiseInProgress) =>
        if promiseInProgress then nextTimer w
        else if showSpinner (app (store w)) then S (nextTimer w)
             else nextTimer w
    | _ => nextTimer w
    end /\
  mounted (next w e) =
    match e with
    | Unmount => false
    | _ => mounted w
    end /\
  refreshCleanup (next w e) =
    match e with
    | Rerun RefreshHook => Some (Some (nextTimer w))
    | Unmount => None
    | _ => refreshCleanup w
    end /\
  spinnerCleanup (next w e) =
    match e with
    | Rerun (SpinnerHook _) => Some None
    | Unmount => None
    | _ => spinnerCleanup w
    end.
Proof.
  destruct e as [s l | d | | | a | | f | t | d | d | h | i req o | id |];
    try (repeat split; bookkeeping; fail).
  - destruct h as [| | | p]; cbn.
    + unfold focusEffect. repeat split; bookkeeping.
    + unfold bookedListEffect. destruct (currentTab _); repeat split.
    + unfold cleanupRefresh.
      destruct (refreshCleanup w) as [[id |] |]; repeat split; bookkeeping.
    + unfold spinnerEffect, cleanupSpinner.
      destruct (spinnerCleanup w) as [[id |] |]; repeat split; bookkeeping.
  - cbn. unfold fire. destruct (timers w !! id) as [t |]; [| repeat split].
    destruct (kind t), (callback t); repeat split; bookkeeping.
  - cbn. unfold unmount, cleanupSpinner, cleanupRefresh.
    destruct (refreshCleanup w) as [[id |] |] eqn:Hrc; cbn;
      destruct (spinnerCleanup w) as [[id' |] |] eqn:Hsc; repeat split; cbn;
      rewrite ?Hrc, ?Hsc; reflexivity.
Qed.

Lemma reachable_timers_inv w : reachable w -> timers_inv w.
Proof.
  revert w. apply reachable_induction; [intros p now | intros w e Hw IH He].
  - unfold timers_inv. destruct p; cbn; repeat split.
    all: try (intros id t Hl; apply lookup_insert_Some in Hl as [[<- _] | [_ Hl]];
              [ first [lia | reflexivity]
              | rewrite lookup_empty in Hl; discriminate Hl ]).
    all: try (right; reflexivity).
    all: try discriminate.
    all: intros _; exists 1%nat; split; [reflexivity | apply lookup_insert_eq].
  - destruct IH as (I1 & I2 & I3 & I4 & I5).
    pose proof (timers_next w e I5) as Ht.
    destruct (bookkeeping_next w e) as (Hn & Hm & Hr & Hs).
    unfold timers_inv. rewrite Ht, Hn, Hm, Hr, Hs. clear Ht Hn Hm Hr Hs.
    destruct e as [s l | d | | | a | | f | t | d | d | h | i req o | id' |];
      try (repeat split; assumption).
    + destruct h as [| | | p]; try (repeat split; assumption).
      * (* the refresh effect runs again *)
        destruct (I3 He) as (id0 & Hrc & Hl0). rewrite Hrc.
        repeat split.
        -- intros id t Hl.
           apply lookup_insert_Some in Hl as [[<- _] | [_ Hl]]; [lia |].
           apply lookup_delete_Some in Hl as [_ Hl].
           specialize (I1 _ _ Hl). lia.
        -- intros id t Hl Hk.
           apply lookup_insert_Some in Hl as [[<- _] | [_ Hl]]; [reflexivity |].
           apply lookup_delete_Some in Hl as [Hne Hl].
           specialize (I2 _ _ Hl Hk). congruence.
        -- intros _. exists (nextTimer w).
           split; [reflexivity | apply lookup_insert_eq].
        -- intros Hm. congruence.
        -- assumption.
      * (* the spinner effect runs again *)
        destruct p; [| destruct (showSpinner (app (store w)))].
        -- repeat split; try assumption. right; reflexivity.
        -- repeat split.
           ++ intros id t Hl.
              apply lookup_insert_Some in Hl as [[<- _] | [_ Hl]]; [lia |].
              specialize (I1 _ _ Hl). lia.
           ++ intros id t Hl Hk.
              apply lookup_insert_Some in Hl as [[_ <-] | [_ Hl]];
                [discriminate Hk | exact (I2 _ _ Hl Hk)].
           ++ intros Hm. destruct (I3 Hm) as (id0 & Hrc & Hl0).
              exists id0. split; [assumption |].
              rewrite lookup_insert_ne; [assumption |].
              specialize (I1 _ _ Hl0). lia.
           ++ assumption.
           ++ right; reflexivity.
        -- repeat split; try assumption. right; reflexivity.
    + (* a timer comes due *)
      destruct (timers w !! id') as [t' |] eqn:Hl';
        [| repeat split; assumption].
      destruct (kind t') eqn:Hk'; [repeat split; assumption |].
      repeat split; try assumption.
      * intros id t Hl. apply lookup_delete_Some in Hl as [_ Hl].
        exact (I1 _ _ Hl).
      * intros id t Hl Hk. apply lookup_delete_Some in Hl as [_ Hl].
        exact (I2 _ _ Hl Hk).
      * intros Hm. destruct (I3 Hm) as (id0 & Hrc & Hl0).
        exists id0. split; [assumption |].
        rewrite lookup_delete_ne; [assumption |].
        intros ->. rewrite Hl' in Hl0. injection Hl0 as ->. discriminate Hk'.
    + (* teardown *)
      destruct (I3 He) as (id0 & Hrc & Hl0). rewrite Hrc.
      repeat split.
      * intros id t Hl. apply lookup_delete_Some in Hl as [_ Hl].
        exact (I1 _ _ Hl).
      * intros id t Hl Hk. apply lookup_delete_Some in Hl as [Hne Hl].
        specialize (I2 _ _ Hl Hk). congruence.
      * discriminate.
      * left; reflexivity.
Qed.

(** X8.  Every timer pending in a reachable world is one of the two the
    component sets: the repeating timer of 60000 ms that re-fetches the slot
    list, or the one-shot timer of 1250 ms that hides the spinner. *)
Theorem only_two_kinds_of_timer w id t :
  reachable w -> timers w !! id = Some t ->
  t = mkTimer Interval RefetchSlots 60000 \/
  t = mkTimer Timeout HideSpinner 1250.
Proof.
  intros Hw Hl. exact (timers_scheduled w Hw id t Hl).
Qed.

(** X9.  After teardown no repeating timer is left: every timer still pending
    in a reachable world whose component is unmounted is a one-shot timer
    that hides the spinner. *)
Theorem no_interval_after_teardown w id t :
  reachable w -> mounted w = false -> timers w !! id = Some t ->
  t = mkTimer Timeout HideSpinner 1250.
Proof.
  intros Hw Hm Hl.
  destruct (reachable_timers_inv w Hw) as (_ & I2 & _ & I4 & _).
  destruct (timers_scheduled w Hw id t Hl) as [-> | ->]; [| reflexivity].
  specialize (I2 _ _ Hl eq_refl). rewrite (I4 Hm) in I2. discriminate I2.
Qed.

(** X10.  While the component is mounted exactly one repeating timer is
    pending, the 60000 ms timer that re-fetches the slot list: running the
    refresh effect again replaces it and never adds a second one. *)
Theorem one_interval_while_mounted w :
  reachable w -> mounted w = true ->
  exists id,
    timers w !! id = Some (mkTimer Interval RefetchSlots 60000) /\
    forall id' t', timers w !! id' = Some t' -> kind t' = Interval -> id' = id.
Proof.
  intros Hw Hm.
  destruct (reachable_timers_inv w Hw) as (_ & I2 & I3 & _ & _).
  destruct (I3 Hm) as (id & Hrc & Hl). exists id. split; [assumption |].
  intros id' t' Hl' Hk'. specialize (I2 _ _ Hl' Hk'). congruence.
Qed.

(** X11.  A pending one-shot timer leaves the table only by coming due: no
    other step of a reachable world, not a re-run of the spinner effect and
    not the teardown, cancels it. *)
Theorem hide_timer_never_cancelled w e id t :
  reachable w -> enabled w e ->
  timers w !! id = Some t -> kind t = Timeout -> e <> Fire id ->
  timers (next w e) !! id = Some t.
Proof.
  intros Hw He Hl Hk Hne.
  destruct (reachable_timers_inv w Hw) as (I1 & I2 & I3 & I4 & I5).
  rewrite (timers_next w e I5).
  assert (Hrc : forall id0, refreshCleanup w = Some (Some id0) -> id0 <> id).
  { intros id0 Hrc ->.
    assert (Hm : mounted w = true).
    { destruct (mounted w); [reflexivity |]. rewrite I4 in Hrc; congruence. }
    destruct (I3 Hm) as (id1 & Hrc1 & Hl1).
    assert (id1 = id) by congruence. subst id1.
    rewrite Hl in Hl1. injection Hl1 as ->. discriminate Hk. }
  destruct e as [s l | d | | | a | | f | t0 | d | d | h | i req o | id' |];
    try assumption.
  - destruct h as [| | | p]; try assumption.
    + rewrite lookup_insert_ne; [| specialize (I1 _ _ Hl); lia].
      destruct (refreshCleanup w) as [[id0 |] |]; try assumption.
      rewrite lookup_delete_ne; [assumption | apply Hrc; reflexivity].
    + destruct p; [assumption |].
      destruct (showSpinner (app (store w))); [| assumption].
      rewrite lookup_insert_ne; [assumption | specialize (I1 _ _ Hl); lia].
  - destruct (timers w !! id') as [t' |]; [| assumption].
    destruct (kind t'); [assumption |].
    rewrite lookup_delete_ne; [assumption | congruence].
  - destruct (refreshCleanup w) as [[id0 |] |]; try assumption.
    rewrite lookup_delete_ne; [assumption | apply Hrc; reflexivity].
Qed.

(** X12.  What a timer does when it comes due in a reachable world.  A
    repeating timer adds one tracked [Api.fetchSlots] request and leaves the
    store and the timer table as they are.  A one-shot timer leaves the
    table, adds no request, and sets [showSpinner] to [false] while the
    component is mounted. *)
Theorem timer_comes_due w id t :
  reachable w -> timers w !! id = Some t ->
  let w' := next w (Fire id) in
  match kind t with
  | Interval =>
      inflight w' = inflight w ++ [trackPromise getSlotListData] /\
      store w' = store w /\
      timers w' = timers w
  | Timeout =>
      inflight w' = inflight w /\
      timers w' = delete id (timers w) /\
      app (store w') =
        (if mounted w then with_showSpinner false (app (store w))
         else app (store w))
  end.
Proof.
  intros Hw Hl.
  destruct (timers_scheduled w Hw id t Hl) as [-> | ->];
    cbn; unfold fire; rewrite Hl; cbn.
  - repeat split.
  - destruct (mounted w); repeat split.
Qed.

(** *** How operations and effects compose *)

(** X13.  Refreshing the slot list.  In a mounted component, after the view
    calls [refreshList] and the refresh effect runs again, exactly one new
    tracked [Api.fetchSlots] request is in flight.  After the focus effect
    and then the refresh effect run again, one is added exactly when the
    focus is on the slot list or [triggerRefresh] was already set.  Either
    way [triggerRefresh] is [false] afterwards. *)
Theorem slot_list_refresh w :
  mounted w = true ->
  let asked := play w [RefreshList; Rerun RefreshHook] in
  let focused := play w [Rerun FocusHook; Rerun RefreshHook] in
  inflight asked = inflight w ++ [trackPromise getSlotListData] /\
  triggerRefresh (app (store asked)) = false /\
  inflight focused =
    inflight w ++
    (if focusOnList (app (store w)) || triggerRefresh (app (store w))
     then [trackPromise getSlotListData] else []) /\
  triggerRefresh (app (store focused)) = false.
Proof.
  intros Hm. cbn. unfold focusEffect, cleanupRefresh.
  destruct (refreshCleanup w) as [[id |] |] eqn:Hrc;
    destruct (focusOnList (app (store w))) eqn:Hfocus;
    destruct (triggerRefresh (app (store w))) eqn:Htrigger;
    do 4 (cbn; rewrite ?Hm, ?Hrc, ?Htrigger);
    rewrite ?app_nil_r; repeat split.
Qed.

(** X14.  The booking history.  In a mounted component, switching to the
    history tab and re-running its effect adds one untracked
    [Api.fetchBooked] request for the start and end date of the store, both
    passed through [ISOStringWithoutTimeZone]; on the booking tab the effect
    adds nothing; after a new start date or end date is picked on the history
    tab the request is made with the new date. *)
Theorem booking_history_fetch w d :
  mounted w = true ->
  let iso := ISOStringWithoutTimeZone in
  let s := app (store w) in
  let history := play w [SwitchTab BOOKED; Rerun BookedListHook] in
  let from := play w [SwitchTab BOOKED; PickStartDate d; Rerun BookedListHook] in
  let to := play w [SwitchTab BOOKED; PickEndDate d; Rerun BookedListHook] in
  map call (inflight history) =
    map call (inflight w) ++ [Api.fetchBooked (iso (startDate s)) (iso (endDate s))] /\
  map tracked (inflight history) = map tracked (inflight w) ++ [false] /\
  inflight (play w [SwitchTab BOOK; Rerun BookedListHook]) = inflight w /\
  map call (inflight from) =
    map call (inflight w) ++ [Api.fetchBooked (iso d) (iso (endDate s))] /\
  map call (inflight to) =
    map call (inflight w) ++ [Api.fetchBooked (iso (startDate s)) (iso d)].
Proof.
  intros Hm. cbn. unfold bookedListEffect. cbn. rewrite Hm. cbn.
  rewrite ?map_app. repeat split.
Qed.

Lemma claimAppointment_without_token render startDateTime slotLengthMin :
  claimToken render = "" ->
  claimAppointment render startDateTime slotLengthMin =
    [claimAppointment_claim render startDateTime slotLengthMin].
Proof. intros Heq. unfold claimAppointment. rewrite Heq. reflexivity. Qed.

(** X15.  Two claims in flight.  In a mounted component without a claim
    token the user picks a first and then a second slot before either answer
    is back, and the answer for the second slot comes first.  Then the
    component made two [Api.claimSlot] calls and no [Api.unClaimSlot] call;
    in the end the claim token, the start time and the selected appointment
    are those of the first slot, the one whose answer came last, and no
    request for the second slot's token is left in flight. *)
Theorem late_claim_response_wins w s1 l1 s2 l2
    (r1 r2 : Response string) :
  mounted w = true ->
  claimToken (app (store w)) = "" ->
  let render := app (store w) in
  let n := length (inflight w) in
  let c1 := claimAppointment_claim render s1 l1 in
  let c2 := claimAppointment_claim render s2 l2 in
  let picked := play w [Claim s1 l1; Claim s2 l2] in
  let answers :=
    [Settle (S n) c2 (Fulfilled r2); Settle n c1 (Fulfilled r1)] in
  let w' := play picked answers in
  map call (inflight picked) =
    map call (inflight w) ++ [Api.claimSlot s1; Api.claimSlot s2] /\
  all_enabled picked answers /\
  claimToken (app (store w')) = data r1 /\
  startDateTime (app (store w')) = s1 /\
  selectedAppointment (app (store w')) = Appointment.mk s1 l1 /\
  inflight w' = inflight w.
Proof.
  intros Hm Htoken. cbn -[claimAppointment].
  rewrite !claimAppointment_without_token by assumption.
  set (c1 := claimAppointment_claim (app (store w)) s1 l1).
  set (c2 := claimAppointment_claim (app (store w)) s2 l2).
  assert (Hc2 : ((inflight w ++ [c1]) ++ [c2]) !! S (length (inflight w))
                = Some c2).
  { replace (S (length (inflight w))) with (length (inflight w ++ [c1]))
      by (rewrite length_app; cbn; lia).
    apply list_lookup_middle. reflexivity. }
  assert (Hd2 : delete (S (length (inflight w))) ((inflight w ++ [c1]) ++ [c2])
                = inflight w ++ [c1]).
  { replace (S (length (inflight w))) with (length (inflight w ++ [c1]))
      by (rewrite length_app; cbn; lia).
    rewrite delete_middle. apply app_nil_r. }
  split.
  { rewrite !map_app, <- app_assoc. reflexivity. }
  split.
  { split; [exact Hc2 |]. split; [| exact I].
    cbn. rewrite ?inflight_run. cbn. rewrite Hd2.
    apply list_lookup_middle. reflexivity. }
  cbn. rewrite ?app_store_run, ?inflight_run. cbn. rewrite Hm, Hd2.
  repeat split.
  rewrite delete_middle. apply app_nil_r.
Qed.

(** X16.  Mounting.  Whatever the promise tracker reports and whatever the
    date, mounting the component makes exactly one call, a tracked
    [Api.fetchSlots]; sets exactly one timer, the 60000 ms repeating timer;
    leaves [triggerRefresh] at [false] and the spinner as the tracker
    reports; and leaves the console and the unhandled rejections empty. *)
Theorem mount_fetches_once promiseInProgress now :
  let w := mount promiseInProgress now in
  map call (inflight w) = [Api.fetchSlots] /\
  map tracked (inflight w) = [true] /\
  timers w = {[ 1%nat := mkTimer Interval RefetchSlots 60000 ]} /\
  triggerRefresh (app (store w)) = false /\
  showSpinner (app (store w)) = promiseInProgress /\
  console (store w) = [] /\
  unhandled w = [] /\
  mounted w = true.
Proof. destruct promiseInProgress; cbn; repeat split. Qed.

(** *** More runs *)

Lemma reachable_asking : reachable (asking ISOStringWithoutTimeZone).
Proof.
  apply reachable_next; [apply reachable_mount | vm_compute; reflexivity].
Qed.


Lemma reachable_submitting : reachable (submitting ISOStringWithoutTimeZone).
Proof.
  apply reachable_next; [apply reachable_claimed | vm_compute; reflexivity].
Qed.


Lemma reachable_hiding : reachable (hiding ISOStringWithoutTimeZone).
Proof.
  apply reachable_play; [apply reachable_mount | run_enabled].
Qed.

End WorldProperties.


(** C9 fails as stated: it is not so that in every reachable world a successful
    claim and a successful cancellation reset [firstName], [name] and [phone]
    and leave [office] as it is in the store.  In the run the user corrected
    the office from [Nord] to [Sued] while the unclaim call was in flight; the
    handler writes back the office of the render in which cancel was
    pressed. *)
Lemma office_overwritten_by_stale_form_state :
  ~ ((forall (ISOStringWithoutTimeZone : Date -> string) (w : World) (i : nat)
             (render : AppState) (startDateTime : string) (slotLengthMin : Z)
             (response : Response string),
        reachable ISOStringWithoutTimeZone w ->
        inflight w !! i =
          Some (claimAppointment_claim render startDateTime slotLengthMin) ->
        formState
          (app (store (next ISOStringWithoutTimeZone w
                         (Settle i
                            (claimAppointment_claim render startDateTime
                               slotLengthMin)
                            (Fulfilled response))))) =
        FormState.mk "" "" "" (FormState.office (formState (app (store w)))))
     /\
     (forall (ISOStringWithoutTimeZone : Date -> string) (w : World) (i : nat)
             (render : AppState) (response : Response JSValue),
        reachable ISOStringWithoutTimeZone w ->
        inflight w !! i = Some (onCancelBooking render) ->
        formState
          (app (store (next ISOStringWithoutTimeZone w
                         (Settle i (onCancelBooking render)
                            (Fulfilled response))))) =
        FormState.mk "" "" "" (FormState.office (formState (app (store w)))))).
Proof.
  intros [_ Hcancel].
  pose (iso := fun _ : Date => "").
  specialize (Hcancel iso (cancelling iso) 1%nat (app (store (typed iso)))
                (mkResponse 200 JNull) (reachable_cancelling iso)).
  assert (Hin : inflight (cancelling iso) !! 1%nat =
                Some (onCancelBooking (app (store (typed iso))))).
  { vm_compute. reflexivity. }
  specialize (Hcancel Hin). vm_compute in Hcancel. discriminate Hcancel.
Qed.

(** ** The properties at work in the runs

    Each lemma below takes a theorem with hypotheses to one of the runs,
    where its hypotheses hold. *)

Lemma claimToken_set_only_by_claim_witness :
  let w := asking plain_date in
  let e := Settle 1 (first_claim plain_date)
             (Fulfilled (mkResponse 200 "token-1")) in
  reachable plain_date w /\ enabled w e /\
  let w' := next plain_date w e in
  claimToken (app (store w')) = claimToken (app (store w)) \/
  claimToken (app (store w')) = "" \/
  exists i req o startDateTime slotLengthMin,
    e = Settle i req o /\
    call req = Api.claimSlot startDateTime /\
    claimed_token (call req) o = Some (claimToken (app (store w'))) /\
    selectedAppointment (app (store w')) =
      Appointment.mk startDateTime slotLengthMin.
Proof.
  cbv zeta.
  split; [apply reachable_asking |].
  split; [vm_compute; reflexivity |].
  apply (claimToken_set_only_by_claim plain_date);
    [apply reachable_asking | vm_compute; reflexivity].
Defined.





Lemma bookedAppointment_set_only_by_booking_witness :
  let w := submitting plain_date in
  let e := confirmation in
  reachable plain_date w /\ enabled w e /\
  let w' := next plain_date w e in
  bookedAppointment (app (store w')) = bookedAppointment (app (store w)) \/
  exists i req o data',
    e = Settle i req o /\
    call req = Api.book data' /\
    booked_slot (call req) o = Some (bookedAppointment (app (store w'))) /\
    Infobox.state (infoboxState (app (store w'))) = APPOINTMENT_SUCCESS /\
    claimToken (app (store w')) = "".
Proof.
  cbv zeta.
  split; [apply reachable_submitting |].
  split; [vm_compute; reflexivity |].
  apply (bookedAppointment_set_only_by_booking plain_date);
    [apply reachable_submitting | vm_compute; reflexivity].
Defined.


Lemma console_only_from_failed_cancel_witness :
  let w := cancelling plain_date in
  let e := Settle 1 (cancellation plain_date) (Rejected (ApiError None)) in
  reachable plain_date w /\ enabled w e /\
  let w' := next plain_date w e in
  console (store w') = console (store w) \/
  exists i render error,
    e = Settle i (onCancelBooking render) (Rejected error) /\
    console (store w') = console (store w) ++ [error] /\
    app (store w') = app (store w).
Proof.
  cbv zeta.
  split; [apply reachable_cancelling |].
  split; [vm_compute; reflexivity |].
  apply (console_only_from_failed_cancel plain_date);
    [apply reachable_cancelling | vm_compute; reflexivity].
Defined.

Lemma only_two_kinds_of_timer_witness :
  let w := booted plain_date in
  let t := mkTimer Interval RefetchSlots 60000 in
  reachable plain_date w /\
  timers w !! 1%nat = Some t /\
  (t = mkTimer Interval RefetchSlots 60000 \/
   t = mkTimer Timeout HideSpinner 1250).
Proof.
  cbv zeta.
  split; [apply reachable_mount |].
  split; [vm_compute; reflexivity |].
  apply (only_two_kinds_of_timer plain_date (booted plain_date) 1%nat);
    [apply reachable_mount | vm_compute; reflexivity].
Defined.

Lemma no_interval_after_teardown_witness :
  let w := torn_down plain_date in
  let t := mkTimer Timeout HideSpinner 1250 in
  reachable plain_date w /\
  mounted w = false /\
  timers w !! 3%nat = Some t /\
  t = mkTimer Timeout HideSpinner 1250.
Proof.
  cbv zeta.
  split; [apply reachable_torn_down |].
  split; [vm_compute; reflexivity |].
  split; [vm_compute; reflexivity |].
  apply (no_interval_after_teardown plain_date (torn_down plain_date) 3%nat);
    [apply reachable_torn_down | vm_compute; reflexivity
    | vm_compute; reflexivity].
Defined.

Lemma one_interval_while_mounted_witness :
  let w := hiding plain_date in
  reachable plain_date w /\
  mounted w = true /\
  exists id,
    timers w !! id = Some (mkTimer Interval RefetchSlots 60000) /\
    forall id' t', timers w !! id' = Some t' -> kind t' = Interval -> id' = id.
Proof.
  cbv zeta.
  split; [apply reachable_hiding |].
  split; [vm_compute; reflexivity |].
  apply (one_interval_while_mounted plain_date);
    [apply reachable_hiding | vm_compute; reflexivity].
Defined.

Lemma hide_timer_never_cancelled_witness :
  let w := hiding plain_date in
  let t := mkTimer Timeout HideSpinner 1250 in
  reachable plain_date w /\
  enabled w Unmount /\
  timers w !! 3%nat = Some t /\
  kind t = Timeout /\
  Unmount <> Fire 3 /\
  timers (next plain_date w Unmount) !! 3%nat = Some t.
Proof.
  cbv zeta.
  split; [apply reachable_hiding |].
  split; [vm_compute; reflexivity |].
  split; [vm_compute; reflexivity |].
  split; [reflexivity |].
  split; [discriminate |].
  apply (hide_timer_never_cancelled plain_date);
    [apply reachable_hiding | vm_compute; reflexivity
    | vm_compute; reflexivity | reflexivity | discriminate].
Defined.

Lemma timer_comes_due_witness :
  let w := hiding plain_date in
  let t := mkTimer Timeout HideSpinner 1250 in
  reachable plain_date w /\
  timers w !! 3%nat = Some t /\
  let w' := next plain_date w (Fire 3) in
  match kind t with
  | Interval =>
      inflight w' = inflight w ++ [trackPromise getSlotListData] /\
      store w' = store w /\
      timers w' = timers w
  | Timeout =>
      inflight w' = inflight w /\
      timers w' = delete 3%nat (timers w) /\
      app (store w') =
        (if mounted w then with_showSpinner false (app (store w))
         else app (store w))
  end.
Proof.
  cbv zeta.
  split; [apply reachable_hiding |].
  split; [vm_compute; reflexivity |].
  apply (timer_comes_due plain_date (hiding plain_date) 3%nat
           (mkTimer Timeout HideSpinner 1250));
    [apply reachable_hiding | vm_compute; reflexivity].
Defined.

Lemma slot_list_refresh_witness :
  let w := claimed plain_date in
  mounted w = true /\
  let asked := play plain_date w [RefreshList; Rerun RefreshHook] in
  let focused := play plain_date w [Rerun FocusHook; Rerun RefreshHook] in
  inflight asked = inflight w ++ [trackPromise getSlotListData] /\
  triggerRefresh (app (store asked)) = false /\
  inflight focused =
    inflight w ++
    (if focusOnList (app (store w)) || triggerRefresh (app (store w))
     then [trackPromise getSlotListData] else []) /\
  triggerRefresh (app (store focused)) = false.
Proof.
  cbv zeta.
  split; [vm_compute; reflexivity |].
  apply (slot_list_refresh plain_date). vm_compute; reflexivity.
Defined.

Lemma booking_history_fetch_witness :
  let w := booted plain_date in
  let d := 86400000 in
  mounted w = true /\
  let iso := plain_date in
  let s := app (store w) in
  let history := play plain_date w [SwitchTab BOOKED; Rerun BookedListHook] in
  let from :=
    play plain_date w [SwitchTab BOOKED; PickStartDate d; Rerun BookedListHook] in
  let to :=
    play plain_date w [SwitchTab BOOKED; PickEndDate d; Rerun BookedListHook] in
  map call (inflight history) =
    map call (inflight w) ++ [Api.fetchBooked (iso (startDate s)) (iso (endDate s))] /\
  map tracked (inflight history) = map tracked (inflight w) ++ [false] /\
  inflight (play plain_date w [SwitchTab BOOK; Rerun BookedListHook]) = inflight w /\
  map call (inflight from) =
    map call (inflight w) ++ [Api.fetchBooked (iso d) (iso (endDate s))] /\
  map call (inflight to) =
    map call (inflight w) ++ [Api.fetchBooked (iso (startDate s)) (iso d)].
Proof.
  cbv zeta.
  split; [vm_compute; reflexivity |].
  apply (booking_history_fetch plain_date). vm_compute; reflexivity.
Defined.

Lemma late_claim_response_wins_witness :
  let w := booted plain_date in
  let r1 := mkResponse 200 "token-1" in
  let r2 := mkResponse 200 "token-2" in
  mounted w = true /\
  claimToken (app (store w)) = "" /\
  let render := app (store w) in
  let n := length (inflight w) in
  let c1 := claimAppointment_claim render "2020-05-04T09:00" 15 in
  let c2 := claimAppointment_claim render "2020-05-04T09:15" 15 in
  let picked :=
    play plain_date w
      [Claim "2020-05-04T09:00" 15; Claim "2020-05-04T09:15" 15] in
  let answers :=
    [Settle (S n) c2 (Fulfilled r2); Settle n c1 (Fulfilled r1)] in
  let w' := play plain_date picked answers in
  map call (inflight picked) =
    map call (inflight w) ++
    [Api.claimSlot "2020-05-04T09:00"; Api.claimSlot "2020-05-04T09:15"] /\
  all_enabled plain_date picked answers /\
  claimToken (app (store w')) = data r1 /\
  startDateTime (app (store w')) = "2020-05-04T09:00" /\
  selectedAppointment (app (store w')) =
    Appointment.mk "2020-05-04T09:00" 15 /\
  inflight w' = inflight w.
Proof.
  cbv zeta.
  split; [vm_compute; reflexivity |].
  split; [vm_compute; reflexivity |].
  apply (late_claim_response_wins plain_date (booted plain_date));
    vm_compute; reflexivity.
Defined.
